(** * Curve pool scanner: the yield filter of [filter_high_apy_pools.py]

    A shallow embedding of [filter_high_apy_pools] and the lemmas that settle
    what its specification says about it.

    Modelling decisions, all taken from the source:
    - a value produced by [json.load] is a [json] term; a Python [dict] is an
      association list in insertion order (its keys are distinct in Python),
      because the gauge document is iterated with [.items()];
    - the two look-up dictionaries are only read by key and are [gmap]s;
    - numbers are exact rationals: Python's [int] and [float] are both
      [JNum], and [+], [<] and [max] are exact. The rounding of [float], its
      infinities and NaN, and the [OverflowError] of an integer beyond the
      range of [float] that meets a float are not modelled; the theorems
      word a comparison as the code makes it, with [<] and its negation;
    - strings are byte strings and [.lower()] acts on the ASCII letters,
      where [str.lower] also lower-cases the letters beyond ASCII;
    - every operation that can raise in Python returns a [res], and the
      [try]/[except] of the function turns a raised exception into a printed
      error and the empty list;
    - standard output is the list of the messages printed, a formatted number
      being carried as the number itself. *)

From Stdlib Require Import QArith Ascii String.
From stdpp Require Import base option list strings gmap.

Open Scope string_scope.
Open Scope list_scope.
Set Warnings "-register-all".

(** ** Values, exceptions and results *)

Inductive json : Type :=
  | JNull
  | JBool (b : bool)
  | JNum (q : Q)
  | JStr (s : string)
  | JArr (l : list json)
  | JObj (o : list (string * json)).

Inductive exn : Type :=
  | FileNotFoundError
  | JSONDecodeError
  | AttributeError
  | TypeError
  | KeyError
  | ValueError
  | UnicodeDecodeError
  | OSError
  | OtherException (class_name : string).

Inductive res (A : Type) : Type :=
  | Ok (a : A)
  | Raise (e : exn).
Arguments Ok {A} a.
Arguments Raise {A} e.

#[global] Instance res_bind : MBind res := λ A B f m,
  match m with
  | Ok a => f a
  | Raise e => Raise e
  end.

(** What [open] followed by [json.load] does with a path: the file is
    absent, its text is not JSON, it parses to a value, or reading it
    raises another exception: [UnicodeDecodeError] for bytes that are not
    text, [OSError] for its subclasses other than [FileNotFoundError] (a
    directory, a file without read permission), [OtherException] for any
    other subclass of [Exception], by its name ([RecursionError] for a
    document nested too deep). *)
Inductive file_outcome : Type :=
  | Missing
  | NotJson
  | Parsed (v : json)
  | Unreadable (e : exn).

Definition load (fs : string → file_outcome) (path : string) : res json :=
  match fs path with
  | Missing => Raise FileNotFoundError
  | NotJson => Raise JSONDecodeError
  | Parsed v => Ok v
  | Unreadable e => Raise e
  end.

(** ** Python primitives used by the function *)

Definition Qltb (x y : Q) : bool :=
  (Qnum x * QDen y <? Qnum y * QDen x)%Z.

(** [bool(v)] *)
Definition truthy (v : json) : bool :=
  match v with
  | JNull => false
  | JBool b => b
  | JNum q => negb (Qeq_bool q 0)
  | JStr s => negb (String.eqb s "")
  | JArr l => match l with [] => false | _ => true end
  | JObj o => match o with [] => false | _ => true end
  end.

Fixpoint dict_get (k : string) (o : list (string * json)) : option json :=
  match o with
  | [] => None
  | (k', v) :: o' => if String.eqb k k' then Some v else dict_get k o'
  end.

(** [v.get(k, d)]: only a [dict] has the method. *)
Definition py_get (v : json) (k : string) (d : json) : res json :=
  match v with
  | JObj o => Ok (default d (dict_get k o))
  | _ => Raise AttributeError
  end.

(** [v[k]] with a string key. *)
Definition py_getitem (v : json) (k : string) : res json :=
  match v with
  | JObj o =>
      match dict_get k o with
      | Some x => Ok x
      | None => Raise KeyError
      end
  | _ => Raise TypeError
  end.

(** [v.items()] *)
Definition py_items (v : json) : res (list (string * json)) :=
  match v with
  | JObj o => Ok o
  | _ => Raise AttributeError
  end.

Fixpoint chars (s : string) : list json :=
  match s with
  | EmptyString => []
  | String c s' => JStr (String c EmptyString) :: chars s'
  end.

(** [for x in v]: a list yields its elements, a dict its keys, a string its
    characters; nothing else is iterable. *)
Definition py_iter (v : json) : res (list json) :=
  match v with
  | JArr l => Ok l
  | JObj o => Ok (map (λ kv, JStr (fst kv)) o)
  | JStr s => Ok (chars s)
  | _ => Raise TypeError
  end.

Definition lower_ascii (c : ascii) : ascii :=
  let n := nat_of_ascii c in
  if (65 <=? n)%nat && (n <=? 90)%nat then ascii_of_nat (n + 32) else c.

Fixpoint lower (s : string) : string :=
  match s with
  | EmptyString => EmptyString
  | String c s' => String (lower_ascii c) (lower s')
  end.

(** [v.lower()]: only a [str] has the method. *)
Definition str_lower (v : json) : res string :=
  match v with
  | JStr s => Ok (lower s)
  | _ => Raise AttributeError
  end.

(** [needle in hay] on strings. *)
Fixpoint contains (needle hay : string) : bool :=
  String.prefix needle hay ||
  match hay with
  | EmptyString => false
  | String _ hay' => contains needle hay'
  end.

(** The numeric reading of a value in arithmetic and comparison: [bool] is
    a subtype of [int] in Python. *)
Definition as_num (v : json) : option Q :=
  match v with
  | JNum q => Some q
  | JBool true => Some 1%Q
  | JBool false => Some 0%Q
  | _ => None
  end.

(** [v + x] and [x + v] with [x] a float: the exact sum of two numbers, a
    [TypeError] for anything else. *)
Definition py_add (v : json) (x : Q) : res Q :=
  match as_num v with
  | Some q => Ok (q + x)%Q
  | None => Raise TypeError
  end.

Definition py_radd (x : Q) (v : json) : res Q :=
  match as_num v with
  | Some q => Ok (x + q)%Q
  | None => Raise TypeError
  end.

(** [v < x] with [x] a float. *)
Definition py_lt (v : json) (x : Q) : res bool :=
  match as_num v with
  | Some q => Ok (Qltb q x)
  | None => Raise TypeError
  end.

(** [max(a, b)]: the first argument unless the second is greater. *)
Definition py_max (a b : Q) : Q := if Qltb a b then b else a.

(** [len(v)] for the list case, the only one the function reaches. *)
Definition py_len (v : json) : nat :=
  match v with
  | JArr l => length l
  | _ => 0
  end.

Definition is_list (v : json) : bool :=
  match v with
  | JArr _ => true
  | _ => false
  end.

(** [v[i]] on a list; the function only indexes a list of length two. *)
Definition py_index (v : json) (i : nat) : json :=
  match v with
  | JArr l => nth i l JNull
  | _ => JNull
  end.

Definition is_none (v : json) : bool :=
  match v with
  | JNull => true
  | _ => false
  end.

(** [v != 'stable'] *)
Definition not_stable (v : json) : bool :=
  match v with
  | JStr s => negb (String.eqb s "stable")
  | _ => true
  end.

(** ** Records built by the function *)

(** The dictionary appended to [high_apy_pools]; the fields are its keys. *)
Record pool_entry : Type := PoolEntry {
  name : string;
  pool_info : json;
  gaugeCrvApy : json;
  extra_rewards_apy : Q;
  total_apy_range : Q * Q;
  max_apy : Q;
  usd_total : json
}.

(** The dictionary appended to [all_pools_with_apy]. *)
Record apy_entry : Type := ApyEntry {
  apy_name : string;
  apy_gaugeCrvApy : json;
  apy_extra_rewards_apy : Q;
  apy_hasNoCrv : json
}.

Inductive message : Type :=
  | InvalidGauges
  | InvalidAllPools
  | FoundNonZero (n : nat)
  | PoolLine (n : string) (crv0 crv1 extra : Q)
  | AndMore (n : nat)
  | NoNonZero
  | ErrorFileNotFound
  | ErrorInvalidJson
  | ErrorOther (e : exn).

(** ** The look-up dictionaries (source lines 40-55) *)

(** [if not data.get('success') or 'data' not in data] *)
Definition invalid_structure (data : json) : res bool :=
  success ← py_get data "success" JNull;
  if negb (truthy success) then Ok true
  else
    match data with
    | JObj o => Ok (negb (bool_decide (is_Some (dict_get "data" o))))
    | _ => Raise TypeError
    end.

(** The inner loop [for reward in gauge_rewards: extra_apy += ...]. *)
Fixpoint sum_rewards (extra_apy : Q) (rewards : list json) : res Q :=
  match rewards with
  | [] => Ok extra_apy
  | reward :: rewards' =>
      apy ← py_get reward "apy" (JNum 0);
      extra_apy' ← py_radd extra_apy apy;
      sum_rewards extra_apy' rewards'
  end.

Definition extra_rewards (pool : json) : res Q :=
  gauge_rewards ← py_get pool "gaugeRewards" (JArr []);
  if truthy gauge_rewards then
    rewards ← py_iter gauge_rewards;
    sum_rewards 0 rewards
  else Ok 0%Q.

(** [pool.get('address', '').lower()] *)
Definition pool_key (pool : json) : res string :=
  address ← py_get pool "address" (JStr "");
  str_lower address.

(** One iteration of the loop over [poolData]. *)
Definition index_pool (lk : gmap string json * gmap string Q) (pool : json)
  : res (gmap string json * gmap string Q) :=
  address ← pool_key pool;
  usd ← py_get pool "usdTotal" (JNum 0);
  let pool_usd_lookup := <[address := usd]> (fst lk) in
  extra_apy ← extra_rewards pool;
  Ok (pool_usd_lookup, <[address := extra_apy]> (snd lk)).

Fixpoint index_pools (lk : gmap string json * gmap string Q) (pools : list json)
  : res (gmap string json * gmap string Q) :=
  match pools with
  | [] => Ok lk
  | pool :: pools' =>
      lk' ← index_pool lk pool;
      index_pools lk' pools'
  end.

Definition build_lookups (pools : list json)
  : res (gmap string json * gmap string Q) :=
  index_pools (∅, ∅) pools.

(** ** The loop over the gauge entries (source lines 57-121) *)

(** [not gauge_crv_apy or not isinstance(gauge_crv_apy, list)
     or len(gauge_crv_apy) != 2] *)
Definition bad_gauge_crv_apy (gauge_crv_apy : json) : bool :=
  negb (truthy gauge_crv_apy) || negb (is_list gauge_crv_apy)
  || negb (py_len gauge_crv_apy =? 2)%nat.

(** [pool_info.get('swap', '').lower()] *)
Definition join_key (info : json) : res string :=
  swap ← py_get info "swap" (JStr "");
  str_lower swap.

(** [x if x is not None else 0] *)
Definition base_apy (x : json) : json :=
  if is_none x then JNum 0 else x.

Section scan.
Variable pool_usd_lookup : gmap string json.
Variable pool_extra_rewards_lookup : gmap string Q.
Variables min_apy min_usd_total : Q.

(** The body of the loop; [st] holds [high_apy_pools] and
    [all_pools_with_apy], a [continue] leaves both as they are. *)
Definition scan_entry (st : list pool_entry * list apy_entry)
    (pool_name : string) (info : json)
  : res (list pool_entry * list apy_entry) :=
  is_pool ← py_get info "isPool" (JBool false);
  if negb (truthy is_pool) then Ok st else
  gauge_crv_apy ← py_get info "gaugeCrvApy" JNull;
  if bad_gauge_crv_apy gauge_crv_apy then Ok st else
  has_no_crv ← py_get info "hasNoCrv" (JBool false);
  if truthy has_no_crv then Ok st else
  type ← py_get info "type" JNull;
  if not_stable type then Ok st else
  let pool_name_lower := lower pool_name in
  if contains "btc" pool_name_lower || contains "eth" pool_name_lower
  then Ok st else
  pool_address ← join_key info;
  let usd := default (JNum 0) (pool_usd_lookup !! pool_address) in
  below ← py_lt usd min_usd_total;
  if below : bool then Ok st else
  let extra_apy := default 0%Q (pool_extra_rewards_lookup !! pool_address) in
  let base_apy_0 := base_apy (py_index gauge_crv_apy 0) in
  let base_apy_1 := base_apy (py_index gauge_crv_apy 1) in
  total_apy_0 ← py_add base_apy_0 extra_apy;
  total_apy_1 ← py_add base_apy_1 extra_apy;
  let high_apy_pools :=
    if Qltb min_apy total_apy_0 || Qltb min_apy total_apy_1 then
      fst st ++ [ {| name := pool_name;
                     pool_info := info;
                     gaugeCrvApy := gauge_crv_apy;
                     extra_rewards_apy := extra_apy;
                     total_apy_range := (total_apy_0, total_apy_1);
                     max_apy := py_max total_apy_0 total_apy_1;
                     usd_total := usd |} ]
    else fst st in
  let all_pools_with_apy :=
    if Qltb 0 total_apy_0 || Qltb 0 total_apy_1 then
      snd st ++ [ {| apy_name := pool_name;
                     apy_gaugeCrvApy := gauge_crv_apy;
                     apy_extra_rewards_apy := extra_apy;
                     apy_hasNoCrv := has_no_crv |} ]
    else snd st in
  Ok (high_apy_pools, all_pools_with_apy).

Fixpoint scan (st : list pool_entry * list apy_entry)
    (items : list (string * json))
  : res (list pool_entry * list apy_entry) :=
  match items with
  | [] => Ok st
  | (pool_name, info) :: items' =>
      st' ← scan_entry st pool_name info;
      scan st' items'
  end.
End scan.

(** ** Sorting and the summary (source lines 123-138) *)

(** [list.sort(key=..., reverse=True)] is specified as a stable sort; it is
    modelled by the stable insertion sort on the key, greatest first, with
    which it agrees when [<] orders the keys, as it does the rationals. *)
Fixpoint insert_desc (e : pool_entry) (l : list pool_entry) : list pool_entry :=
  match l with
  | [] => [e]
  | y :: l' =>
      if Qltb (max_apy e) (max_apy y) then y :: insert_desc e l' else e :: l
  end.

Definition sort_desc (l : list pool_entry) : list pool_entry :=
  foldr insert_desc [] l.

(** The format specification [:.2f] accepts a number and refuses the rest;
    the number is carried as it is, not as the text printed. *)
Definition format_2f (v : json) : res Q :=
  match v with
  | JStr _ => Raise ValueError
  | _ =>
      match as_num v with
      | Some q => Ok q
      | None => Raise TypeError
      end
  end.

Definition format_line (p : apy_entry) : res message :=
  let gauge_apy := apy_gaugeCrvApy p in
  let extra := apy_extra_rewards_apy p in
  crv0 ← format_2f (py_index gauge_apy 0);
  crv1 ← format_2f (py_index gauge_apy 1);
  Ok (PoolLine (apy_name p) crv0 crv1 extra).

(** Printing line after line: what was printed, and the exception that
    stopped the printing, if one did. *)
Fixpoint print_lines (ps : list apy_entry) : list message * option exn :=
  match ps with
  | [] => ([], None)
  | p :: ps' =>
      match format_line p with
      | Raise e => ([], Some e)
      | Ok m => let '(out, r) := print_lines ps' in (m :: out, r)
      end
  end.

Definition print_summary (all_pools_with_apy : list apy_entry)
  : list message * option exn :=
  match all_pools_with_apy with
  | [] => ([NoNonZero], None)
  | _ =>
      let n := length all_pools_with_apy in
      let '(out, r) := print_lines (take 10 all_pools_with_apy) in
      match r with
      | Some e => (FoundNonZero n :: out, Some e)
      | None =>
          (FoundNonZero n :: out ++
             (if (10 <? n)%nat then [AndMore (n - 10)] else []), None)
      end
  end.

(** ** The function *)

(** The body of the [try]: what it printed, then its [return] value or the
    exception that left it. *)
Definition try_body (fs : string → file_outcome)
    (file_path all_pools_file_path : string) (min_apy min_usd_total : Q)
  : list message * res (list pool_entry) :=
  match load fs file_path with
  | Raise e => ([], Raise e)
  | Ok data =>
  match invalid_structure data with
  | Raise e => ([], Raise e)
  | Ok true => ([InvalidGauges], Ok [])
  | Ok false =>
  match load fs all_pools_file_path with
  | Raise e => ([], Raise e)
  | Ok all_pools_data =>
  match invalid_structure all_pools_data with
  | Raise e => ([], Raise e)
  | Ok true => ([InvalidAllPools], Ok [])
  | Ok false =>
  match
    (all_data ← py_getitem all_pools_data "data";
     pool_data ← py_getitem all_data "poolData";
     pools ← py_iter pool_data;
     lk ← build_lookups pools;
     pools_data ← py_getitem data "data";
     items ← py_items pools_data;
     scan (fst lk) (snd lk) min_apy min_usd_total ([], []) items)
  with
  | Raise e => ([], Raise e)
  | Ok (high_apy_pools, all_pools_with_apy) =>
      let sorted := sort_desc high_apy_pools in
      match print_summary all_pools_with_apy with
      | (out, Some e) => (out, Raise e)
      | (out, None) => (out, Ok sorted)
      end
  end end end end end.

(** The three [except] clauses. *)
Definition except (e : exn) : message :=
  match e with
  | FileNotFoundError => ErrorFileNotFound
  | JSONDecodeError => ErrorInvalidJson
  | _ => ErrorOther e
  end.

(** [filter_high_apy_pools]: the standard output and the returned list. *)
Definition filter_high_apy_pools (fs : string → file_outcome)
    (file_path all_pools_file_path : string) (min_apy min_usd_total : Q)
  : list message * list pool_entry :=
  match try_body fs file_path all_pools_file_path min_apy min_usd_total with
  | (out, Ok r) => (out, r)
  | (out, Raise e) => (out ++ [except e], [])
  end.

(** ** The qualification rules, as the specification words them

    These definitions follow section 4.3 of the specification; the lemmas
    below compare them with the loop body [scan_entry]. *)

Definition field (info : json) (k : string) : option json :=
  match info with
  | JObj o => dict_get k o
  | _ => None
  end.

(** Item 1: [isPool] is true. *)
Definition is_pool (info : json) : bool :=
  truthy (default (JBool false) (field info "isPool")).

(** Item 2: [gaugeCrvApy] is present and is a two-element list. *)
Definition crv_pair (info : json) : option (json * json) :=
  match field info "gaugeCrvApy" with
  | Some (JArr [g0; g1]) => Some (g0, g1)
  | _ => None
  end.

(** Item 3: [hasNoCrv] is not true. *)
Definition has_no_crv (info : json) : bool :=
  truthy (default (JBool false) (field info "hasNoCrv")).

(** Item 4: [type] equals "stable". *)
Definition is_stable (info : json) : bool :=
  match field info "type" with
  | Some (JStr s) => String.eqb s "stable"
  | _ => false
  end.

Definition qualifies_1_4 (info : json) : bool :=
  is_pool info && bool_decide (is_Some (crv_pair info))
  && negb (has_no_crv info) && is_stable info.

(** Item 5: the lower-cased name contains neither "btc" nor "eth". *)
Definition name_allowed (pool_name : string) : bool :=
  negb (contains "btc" (lower pool_name))
  && negb (contains "eth" (lower pool_name)).

(** The join: the values found under the lower-cased swap address, with
    the defaults of a missing join. *)
Definition joined_usd (usd_lk : gmap string json) (info : json) : json :=
  match join_key info with
  | Ok k => default (JNum 0) (usd_lk !! k)
  | Raise _ => JNum 0
  end.

Definition joined_extra (extra_lk : gmap string Q) (info : json) : Q :=
  match join_key info with
  | Ok k => default 0%Q (extra_lk !! k)
  | Raise _ => 0%Q
  end.

(** Item 6: the entry has a join key (its [swap], when present, is a
    string) and the joined [usdTotal] is at least [minUsdTotal]. *)
Definition usd_at_least (usd_lk : gmap string json) (min_usd_total : Q)
    (info : json) : bool :=
  match join_key info, as_num (joined_usd usd_lk info) with
  | Ok _, Some q => Qle_bool min_usd_total q
  | _, _ => false
  end.

Definition qualifies (usd_lk : gmap string json) (min_usd_total : Q)
    (pool_name : string) (info : json) : bool :=
  qualifies_1_4 info && name_allowed pool_name
  && usd_at_least usd_lk min_usd_total info.

(** [totalApyRange]: each element of [gaugeCrvApy], null read as 0, plus the
    extra rewards of the joined pool. *)
Definition total_apy (extra_lk : gmap string Q) (info : json)
  : option (Q * Q) :=
  match crv_pair info with
  | Some (g0, g1) =>
      match as_num (base_apy g0), as_num (base_apy g1) with
      | Some b0, Some b1 =>
          Some ((b0 + joined_extra extra_lk info)%Q,
                (b1 + joined_extra extra_lk info)%Q)
      | _, _ => None
      end
  | None => None
  end.

(** The scored pool of a qualifying entry. *)
Definition scored (usd_lk : gmap string json) (extra_lk : gmap string Q)
    (pool_name : string) (info : json) (t : Q * Q) : pool_entry :=
  {| name := pool_name;
     pool_info := info;
     gaugeCrvApy := default JNull (field info "gaugeCrvApy");
     extra_rewards_apy := joined_extra extra_lk info;
     total_apy_range := t;
     max_apy := py_max (fst t) (snd t);
     usd_total := joined_usd usd_lk info |}.

Definition reported (extra_lk : gmap string Q)
    (pool_name : string) (info : json) : apy_entry :=
  {| apy_name := pool_name;
     apy_gaugeCrvApy := default JNull (field info "gaugeCrvApy");
     apy_extra_rewards_apy := joined_extra extra_lk info;
     apy_hasNoCrv := default (JBool false) (field info "hasNoCrv") |}.

(** Either element of the range is strictly above the threshold. *)
Definition above (threshold : Q) (t : Q * Q) : bool :=
  Qltb threshold (fst t) || Qltb threshold (snd t).

(** What section 4.3 puts in the result for one gauge entry: its scored
    pool when the entry qualifies and its range is above [minApy]. *)
Definition spec_result (usd_lk : gmap string json) (extra_lk : gmap string Q)
    (min_apy min_usd_total : Q) (item : string * json) : list pool_entry :=
  if qualifies usd_lk min_usd_total (fst item) (snd item) then
    match total_apy extra_lk (snd item) with
    | Some t =>
        if above min_apy t
        then [scored usd_lk extra_lk (fst item) (snd item) t] else []
    | None => []
    end
  else [].

(** What the loop reports for one gauge entry: the entry when it passes
    the six qualification items and its range is above zero. *)
Definition spec_report (usd_lk : gmap string json) (extra_lk : gmap string Q)
    (min_usd_total : Q) (item : string * json) : list apy_entry :=
  if qualifies usd_lk min_usd_total (fst item) (snd item) then
    match total_apy extra_lk (snd item) with
    | Some t =>
        if above 0 t then [reported extra_lk (fst item) (snd item)] else []
    | None => []
    end
  else [].

(** ** The two documents as the function reads them *)

(** The gauge entries of Document A, in document order. *)
Definition gauge_items (fs : string → file_outcome) (file_path : string)
  : list (string * json) :=
  match fs file_path with
  | Parsed data =>
      match py_getitem data "data" ≫= py_items with
      | Ok items => items
      | Raise _ => []
      end
  | _ => []
  end.

(** The pool records of Document B, in sequence order. *)
Definition pool_records (fs : string → file_outcome)
    (all_pools_file_path : string) : list json :=
  match fs all_pools_file_path with
  | Parsed all_pools_data =>
      match
        py_getitem all_pools_data "data"
          ≫= λ all_data, py_getitem all_data "poolData" ≫= py_iter
      with
      | Ok pools => pools
      | Raise _ => []
      end
  | _ => []
  end.

(** The gauge entry a scored pool was made from. *)
Definition origin (e : pool_entry) : string * json := (name e, pool_info e).

#[global] Instance exn_eq_dec : EqDecision exn.
Proof. solve_decision. Defined.

#[global] Instance res_eq_dec {A : Type} `{EqDecision A} : EqDecision (res A).
Proof. solve_decision. Defined.

(** The pool record a join key finds: the last record of Document B whose
    lower-cased address is the key. *)
Definition joined_pool (k : string) (pools : list json) : option json :=
  last (filter (λ pool, pool_key pool = Ok k) pools).

(** The [usdTotal] of a pool record, 0 when it has none. *)
Definition usd_of (pool : json) : json :=
  default (JNum 0) (field pool "usdTotal").

(** The sum of the [apy] values present in a pool's [gaugeRewards]. *)
Definition reward_list (pool : json) : list json :=
  match field pool "gaugeRewards" with
  | Some (JArr l) => l
  | _ => []
  end.

Definition present_apys (rewards : list json) : list Q :=
  omap (λ reward, field reward "apy" ≫= as_num) rewards.

Definition apy_sum (pool : json) : Q :=
  fold_left Qplus (present_apys (reward_list pool)) 0%Q.

(** ** Shapes of input named by the specification *)

(** A parsed document with a truthy [success] flag and a [data] payload. *)
Definition has_success_and_data (v : json) : bool :=
  match v with
  | JObj o =>
      truthy (default JNull (dict_get "success" o))
      && bool_decide (is_Some (dict_get "data" o))
  | _ => false
  end.

(** A source file the loader refuses: absent, not JSON, unreadable, or
    without the flag and the payload. *)
Definition unusable (f : file_outcome) : bool :=
  match f with
  | Missing => true
  | NotJson => true
  | Parsed v => negb (has_success_and_data v)
  | Unreadable _ => true
  end.

Definition is_error (m : message) : bool :=
  match m with
  | InvalidGauges | InvalidAllPools => true
  | ErrorFileNotFound | ErrorInvalidJson | ErrorOther _ => true
  | _ => false
  end.


(** ** Documents that follow the data model

    Section 3 of the specification types the fields the arithmetic and the
    string operations of the function touch; these predicates say that a
    value has those types. *)

Definition numeric (v : json) : bool :=
  match as_num v with
  | Some _ => true
  | None => false
  end.

(** A reward stream: an object whose [apy], when present, is a number. *)
Definition wf_reward (reward : json) : bool :=
  match reward with
  | JObj o =>
      match dict_get "apy" o with
      | Some v => numeric v
      | None => true
      end
  | _ => false
  end.

(** A pool record: [address] a string, [usdTotal] a number, [gaugeRewards]
    a list of reward streams, each of them optional. *)
Definition wf_pool_record (pool : json) : bool :=
  match pool with
  | JObj o =>
      match dict_get "address" o with
      | Some (JStr _) | None => true
      | _ => false
      end
      && match dict_get "usdTotal" o with
         | Some v => numeric v
         | None => true
         end
      && match dict_get "gaugeRewards" o with
         | Some (JArr l) => forallb wf_reward l
         | None => true
         | _ => false
         end
  | _ => false
  end.

(** A gauge record: [swap] a string when present, and a two-element
    [gaugeCrvApy] made of numbers and nulls. *)
Definition wf_gauge_record (info : json) : bool :=
  match info with
  | JObj o =>
      match dict_get "swap" o with
      | Some (JStr _) | None => true
      | _ => false
      end
      && match crv_pair info with
         | Some (g0, g1) => numeric (base_apy g0) && numeric (base_apy g1)
         | None => true
         end
  | _ => false
  end.

(** Neither element of a two-element [gaugeCrvApy] is null. *)
Definition crv_not_null (info : json) : bool :=
  match crv_pair info with
  | Some (g0, g1) => negb (is_none g0) && negb (is_none g1)
  | None => true
  end.

Definition wf_gauges (data : json) : bool :=
  match data with
  | JObj top =>
      truthy (default JNull (dict_get "success" top))
      && match dict_get "data" top with
         | Some (JObj items) => forallb (λ item, wf_gauge_record (snd item)) items
         | _ => false
         end
  | _ => false
  end.

Definition wf_all_pools (all_pools_data : json) : bool :=
  match all_pools_data with
  | JObj top =>
      truthy (default JNull (dict_get "success" top))
      && match dict_get "data" top with
         | Some (JObj all_data) =>
             match dict_get "poolData" all_data with
             | Some (JArr pools) => forallb wf_pool_record pools
             | _ => false
             end
         | _ => false
         end
  | _ => false
  end.

(** Every value of the liquidity look-up is a number. *)
Definition numeric_values (usd_lk : gmap string json) : Prop :=
  ∀ k v, usd_lk !! k = Some v → numeric v = true.

(** ** Sample documents

    The example of section 8 of the specification, with the pool name, the
    [gaugeCrvApy] value and the liquidity left open. *)
Module Sample.
Definition record (gauge_crv_apy : json) : json :=
  JObj [("isPool", JBool true); ("type", JStr "stable");
        ("hasNoCrv", JBool false); ("swap", JStr "0xAA");
        ("gaugeCrvApy", gauge_crv_apy)].

Definition gauges (items : list (string * json)) : json :=
  JObj [("success", JBool true); ("data", JObj items)].

Definition pool (address : string) (usd : Q) (rewards : list json) : json :=
  JObj [("address", JStr address); ("usdTotal", JNum usd);
        ("gaugeRewards", JArr rewards)].

Definition pools (records : list json) : json :=
  JObj [("success", JBool true);
        ("data", JObj [("poolData", JArr records)])].

Definition reward (apy : Q) : json := JObj [("apy", JNum apy)].

(** Two files, "gauges.json" and "pools.json"; every other path is absent. *)
Definition files (a b : json) (path : string) : file_outcome :=
  if String.eqb path "gauges.json" then Parsed a
  else if String.eqb path "pools.json" then Parsed b
  else Missing.

Definition pair_5_6 : json := JArr [JNum 5; JNum 6].

Definition stable3pool : string * json := ("stable3pool", record pair_5_6).

Definition fs : string → file_outcome :=
  files (gauges [stable3pool]) (pools [pool "0xaa" 6000000 [reward 3]]).

Definition stable3pool_scored : pool_entry :=
  {| name := "stable3pool";
     pool_info := record pair_5_6;
     gaugeCrvApy := pair_5_6;
     extra_rewards_apy := 3;
     total_apy_range := (5 + 3, 6 + 3)%Q;
     max_apy := (6 + 3)%Q;
     usd_total := JNum 6000000 |}.
End Sample.

Module SampleIncomplete.
(** A record with no [isPool] field, between two qualifying ones. *)
Definition incomplete : string * json :=
  ("nameless", JObj [("type", JStr "stable"); ("swap", JStr "0xAA")]).

Definition other : string * json :=
  ("other3pool", Sample.record (JArr [JNum 9; JNum 4])).

Definition top (items : list (string * json)) : list (string * json) :=
  [("success", JBool true); ("data", JObj items)].

Definition pools : json :=
  Sample.pools [Sample.pool "0xaa" 6000000 [Sample.reward 3]].

Definition fs_with : string → file_outcome :=
  Sample.files (JObj (top [Sample.stable3pool; incomplete; other])) pools.

Definition fs_without : string → file_outcome :=
  Sample.files (JObj (top [Sample.stable3pool; other])) pools.
End SampleIncomplete.

Module SampleIllTyped.
(** A record with every required field whose [gaugeCrvApy] pair holds a
    string, and an entry that is not an object, each after a qualifying
    record. *)
Definition ill_typed : string * json :=
  ("oddpool", Sample.record (JArr [JStr "5"; JNum 6])).


Definition fs_with : string → file_outcome :=
  Sample.files (Sample.gauges [Sample.stable3pool; ill_typed])
    SampleIncomplete.pools.


Definition fs_without : string → file_outcome :=
  Sample.files (Sample.gauges [Sample.stable3pool]) SampleIncomplete.pools.
End SampleIllTyped.

Module SampleUnmatched.
(** A gauge record whose swap address no pool record carries. *)
Definition unmatched : json :=
  JObj [("isPool", JBool true); ("type", JStr "stable");
        ("swap", JStr "0xBB"); ("gaugeCrvApy", JArr [JNum 50; JNum 60])].

Definition fs : string → file_outcome :=
  Sample.files (Sample.gauges [("lonepool", unmatched)])
    (Sample.pools [Sample.pool "0xaa" 6000000 [Sample.reward 3]]).

Definition usd_lk : gmap string json := {[ "0xaa" := JNum 6000000 ]}.
Definition extra_lk : gmap string Q := {[ "0xaa" := (0 + 3)%Q ]}.

(** What the loop appends for it when the liquidity threshold is 0. *)
Definition lonepool_scored : pool_entry :=
  {| name := "lonepool";
     pool_info := unmatched;
     gaugeCrvApy := JArr [JNum 50; JNum 60];
     extra_rewards_apy := 0;
     total_apy_range := (50 + 0, 60 + 0)%Q;
     max_apy := (60 + 0)%Q;
     usd_total := JNum 0 |}.

Definition lonepool_reported : apy_entry :=
  {| apy_name := "lonepool";
     apy_gaugeCrvApy := JArr [JNum 50; JNum 60];
     apy_extra_rewards_apy := 0;
     apy_hasNoCrv := JBool false |}.
End SampleUnmatched.

Module SampleDuplicate.
(** Two records with the same address up to letter case. *)
Definition first : json := Sample.pool "0xAA" 1000 [Sample.reward 1].
Definition second : json :=
  Sample.pool "0xaa" 2000 [Sample.reward 2; Sample.reward 5].
Definition elsewhere : json := Sample.pool "0xcc" 3000 [].

Definition usd_lk : gmap string json :=
  <["0xcc" := JNum 3000]> (<["0xaa" := JNum 2000]> (<["0xaa" := JNum 1000]> ∅)).
Definition extra_lk : gmap string Q :=
  <["0xcc" := 0%Q]> (<["0xaa" := (0 + 2 + 5)%Q]> (<["0xaa" := (0 + 1)%Q]> ∅)).
End SampleDuplicate.

Module SampleNoSwap.
(** A gauge record with no [swap] and a pool record with no [address]. *)
Definition no_swap : list (string * json) :=
  [("isPool", JBool true); ("type", JStr "stable");
   ("gaugeCrvApy", JArr [JNum 5; JNum 6])].

Definition no_address : list (string * json) :=
  [("usdTotal", JNum 7000000); ("gaugeRewards", JArr [Sample.reward 4])].

Definition usd_lk : gmap string json :=
  <["" := JNum 7000000]> (<["0xaa" := JNum 6000000]> ∅).
Definition extra_lk : gmap string Q :=
  <["" := (0 + 4)%Q]> (<["0xaa" := (0 + 3)%Q]> ∅).

(** What the loop appends for the gauge record under the name "plainpool". *)
Definition plainpool_scored : pool_entry :=
  {| name := "plainpool";
     pool_info := JObj no_swap;
     gaugeCrvApy := JArr [JNum 5; JNum 6];
     extra_rewards_apy := (0 + 4)%Q;
     total_apy_range := (5 + (0 + 4), 6 + (0 + 4))%Q;
     max_apy := (6 + (0 + 4))%Q;
     usd_total := JNum 7000000 |}.

Definition plainpool_reported : apy_entry :=
  {| apy_name := "plainpool";
     apy_gaugeCrvApy := JArr [JNum 5; JNum 6];
     apy_extra_rewards_apy := (0 + 4)%Q;
     apy_hasNoCrv := JBool false |}.
End SampleNoSwap.

Module SampleNoApy.
(** A reward stream with no [apy] between two that have one. *)
Definition no_apy : list (string * json) := [("symbol", JStr "LDO")].

Definition with_it : list (string * json) :=
  [("address", JStr "0xaa");
   ("gaugeRewards", JArr [Sample.reward 3; JObj no_apy; Sample.reward 2])].

Definition without_it : list (string * json) :=
  [("address", JStr "0xaa");
   ("gaugeRewards", JArr [Sample.reward 3; Sample.reward 2])].
End SampleNoApy.

Module SampleFiltered.
(** Two records that pass items 1-4 with a positive range: one is stopped
    by the name check, the other by the liquidity threshold. *)
Definition low : json :=
  JObj [("isPool", JBool true); ("type", JStr "stable");
        ("hasNoCrv", JBool false); ("swap", JStr "0xDD");
        ("gaugeCrvApy", JArr [JNum 5; JNum 6])].

Definition items : list (string * json) :=
  [("wbtcpool", Sample.record Sample.pair_5_6); ("lowpool", low)].

Definition fs : string → file_outcome :=
  Sample.files (Sample.gauges items)
    (Sample.pools [Sample.pool "0xaa" 6000000 [Sample.reward 3];
                   Sample.pool "0xdd" 4000000 [Sample.reward 3]]).

Definition usd_lk : gmap string json :=
  <["0xdd" := JNum 4000000]> (<["0xaa" := JNum 6000000]> ∅).
Definition extra_lk : gmap string Q :=
  <["0xdd" := (0 + 3)%Q]> (<["0xaa" := (0 + 3)%Q]> ∅).
End SampleFiltered.

Module SampleNull.
(** The example of the specification with a null lower bound, which the
    data model allows: [gaugeCrvApy] is a pair of nullable numbers. *)
Definition info : json := Sample.record (JArr [JNull; JNum 6]).

Definition fs : string → file_outcome :=
  Sample.files (Sample.gauges [("stable3pool", info)])
    (Sample.pools [Sample.pool "0xaa" 6000000 [Sample.reward 3]]).

Definition usd_lk : gmap string json := {[ "0xaa" := JNum 6000000 ]}.
Definition extra_lk : gmap string Q := {[ "0xaa" := (0 + 3)%Q ]}.
End SampleNull.


Ltac error_printed :=
  eexists; split; [|simpl; reflexivity]; reflexivity.

(** A diagnostic entry the summary can format: its pair holds numbers. *)
Definition printable (p : apy_entry) : Prop :=
  ∃ g0 g1,
    apy_gaugeCrvApy p = JArr [g0; g1] ∧
    numeric g0 = true ∧ numeric g1 = true.

(** ** The function up to its loop

    Everything [filter_high_apy_pools] does before it iterates over the
    gauge entries depends on the two files only, not on the thresholds: it
    returns early with a message, raises, or reaches the loop with the two
    look-ups and the gauge entries. *)

Inductive prepared : Type :=
  | EarlyReturn (msg : message)
  | Raised (e : exn)
  | Ready (usd_lk : gmap string json) (extra_lk : gmap string Q)
          (items : list (string * json)).

Definition prepare (fs : string → file_outcome)
    (file_path all_pools_file_path : string) : prepared :=
  match load fs file_path with
  | Raise e => Raised e
  | Ok data =>
  match invalid_structure data with
  | Raise e => Raised e
  | Ok true => EarlyReturn InvalidGauges
  | Ok false =>
  match load fs all_pools_file_path with
  | Raise e => Raised e
  | Ok all_pools_data =>
  match invalid_structure all_pools_data with
  | Raise e => Raised e
  | Ok true => EarlyReturn InvalidAllPools
  | Ok false =>
  match
    (all_data ← py_getitem all_pools_data "data";
     pool_data ← py_getitem all_data "poolData";
     pools ← py_iter pool_data;
     lk ← build_lookups pools;
     pools_data ← py_getitem data "data";
     items ← py_items pools_data;
     Ok (lk, items))
  with
  | Raise e => Raised e
  | Ok (lk, items) => Ready (fst lk) (snd lk) items
  end end end end end.

(** What the function does once the loop is reached. *)
Definition finish (usd_lk : gmap string json) (extra_lk : gmap string Q)
    (items : list (string * json)) (min_apy min_usd_total : Q)
  : list message * list pool_entry :=
  match scan usd_lk extra_lk min_apy min_usd_total ([], []) items with
  | Raise e => ([except e], [])
  | Ok (h, d) =>
      match print_summary d with
      | (out, None) => (out, sort_desc h)
      | (out, Some e) => (out ++ [except e], [])
      end
  end.

(** The message the function prints for a source file it cannot use:
    [invalid] is the message of the structure check of that file. *)
Definition source_error (f : file_outcome) (invalid : message)
  : option message :=
  match f with
  | Missing => Some ErrorFileNotFound
  | NotJson => Some ErrorInvalidJson
  | Parsed (JObj top) =>
      if has_success_and_data (JObj top) then None else Some invalid
  | Parsed _ => Some (ErrorOther AttributeError)
  | Unreadable e => Some (except e)
  end.

(** The first source error, the gauges file being read before the pools
    file. *)
Definition first_source_error (fs : string → file_outcome)
    (file_path all_pools_file_path : string) : option message :=
  match source_error (fs file_path) InvalidGauges with
  | Some msg => Some msg
  | None => source_error (fs all_pools_file_path) InvalidAllPools
  end.

(** Two runs of the loop agree on the diagnostic list, or raise the same
    exception. *)
Definition same_report (r r' : res (list pool_entry * list apy_entry))
  : Prop :=
  match r, r' with
  | Ok (_, d), Ok (_, d') => d = d'
  | Raise e, Raise e' => e = e'
  | _, _ => False
  end.

(** The summary line printed for a diagnostic entry names the entry and
    carries its extra rewards. *)
Definition line_of (p : apy_entry) (msg : message) : Prop :=
  ∃ crv0 crv1,
    msg = PoolLine (apy_name p) crv0 crv1 (apy_extra_rewards_apy p).



(** The capital letters A to Z, and a string that holds one of them. *)
Definition is_capital (c : ascii) : bool :=
  bool_decide (c ∈ list_ascii_of_string "ABCDEFGHIJKLMNOPQRSTUVWXYZ").

Fixpoint has_capital (s : string) : bool :=
  match s with
  | EmptyString => false
  | String c s' => is_capital c || has_capital s'
  end.

(** A pool record the loop over [poolData] accepts: it has a key and its
    rewards can be summed. *)
Definition indexable (pool : json) : Prop :=
  ∃ k q, pool_key pool = Ok k ∧ extra_rewards pool = Ok q.

(** ** The report: [print_results] (source lines 150-181)

    [print_results] is called outside every [try]: what it raises leaves
    [main]. It subscripts with an integer, which adds [IndexError] to the
    exceptions of the filter. Its standard output is the list of the lines
    printed, a formatted number being carried as the number itself and a
    value printed with [str] as the value. *)

Inductive failure : Type :=
  | Builtin (e : exn)
  | IndexError.

Inductive ran (A : Type) : Type :=
  | Done (a : A)
  | Failed (e : failure).
Arguments Done {A} a.
Arguments Failed {A} e.

Inductive report_line : Type :=
  | NoPools (min_apy : Q)
  | FoundPools (n : nat) (min_apy : Q)
  | DoubleRule
  | PoolTitle (i : nat) (pool_name : string)
  | BaseCrvApy (crv0 crv1 : Q)
  | ExtraApy (extra : Q)
  | TotalApy (total0 total1 : Q)
  | MaxTotalApy (q : Q)
  | UsdTotal (q : Q)
  | TypeLine (v : json)
  | Blockchain (v : json)
  | SwapUrl (v : json)
  | Rule.

(** A computation that prints lines and then returns or raises. *)
Definition io (A : Type) : Type := list report_line * ran A.

Definition io_bind {A B : Type} (m : io A) (f : A → io B) : io B :=
  match m with
  | (out, Failed e) => (out, Failed e)
  | (out, Done a) =>
      match f a with
      | (out', r) => (out ++ out', r)
      end
  end.

Notation "x ⇐ m ; k" := (io_bind m (λ x, k))
  (at level 20, m at level 100, k at level 200, only parsing).

Definition print (line : report_line) : io unit := ([line], Done ()).

(** An operation of the filter inside the report: it prints nothing. *)
Definition lift {A : Type} (r : res A) : io A :=
  match r with
  | Ok a => ([], Done a)
  | Raise e => ([], Failed (Builtin e))
  end.

Definition first_char (s : string) : option json :=
  match s with
  | EmptyString => None
  | String c _ => Some (JStr (String c EmptyString))
  end.

(** [v[i]] with an integer [i] that is not negative: a list and a string
    are indexed, a dictionary read from JSON has no integer key, and
    nothing else can be subscripted. *)
Definition py_subscript (v : json) (i : nat) : io json :=
  match v with
  | JArr l =>
      match nth_error l i with
      | Some x => ([], Done x)
      | None => ([], Failed IndexError)
      end
  | JStr s =>
      match first_char (String.substring i 1 s) with
      | Some c => ([], Done c)
      | None => ([], Failed IndexError)
      end
  | JObj _ => ([], Failed (Builtin KeyError))
  | _ => ([], Failed (Builtin TypeError))
  end.

(** The body of the loop of [print_results] for the pool numbered [i]. *)
Definition report_pool (i : nat) (pool : pool_entry) : io unit :=
  let info := pool_info pool in
  let gauge_apy := gaugeCrvApy pool in
  let extra_apy := extra_rewards_apy pool in
  let total_apy := total_apy_range pool in
  _ ⇐ print (PoolTitle i (name pool));
  g0 ⇐ py_subscript gauge_apy 0;
  crv0 ⇐ lift (format_2f g0);
  g1 ⇐ py_subscript gauge_apy 1;
  crv1 ⇐ lift (format_2f g1);
  _ ⇐ print (BaseCrvApy crv0 crv1);
  _ ⇐ print (ExtraApy extra_apy);
  _ ⇐ print (TotalApy (fst total_apy) (snd total_apy));
  _ ⇐ print (MaxTotalApy (max_apy pool));
  usd ⇐ lift (format_2f (usd_total pool));
  _ ⇐ print (UsdTotal usd);
  type ⇐ lift (py_get info "type" (JStr "unknown"));
  _ ⇐ print (TypeLine type);
  chain ⇐ lift (py_get info "blockchainId" (JStr "unknown"));
  _ ⇐ print (Blockchain chain);
  pool_urls ⇐ lift (py_get info "poolUrls" (JObj []));
  _ ⇐ (if truthy pool_urls then
         swap_urls ⇐ lift (py_get pool_urls "swap" (JArr []));
         if truthy swap_urls then
           url ⇐ py_subscript swap_urls 0;
           print (SwapUrl url)
         else ([], Done ())
       else ([], Done ()));
  print Rule.

(** [for i, pool in enumerate(high_apy_pools, 1)], from the number [i]. *)
Fixpoint report_pools (i : nat) (pools : list pool_entry) : io unit :=
  match pools with
  | [] => ([], Done ())
  | pool :: pools' =>
      _ ⇐ report_pool i pool;
      report_pools (S i) pools'
  end.

Definition print_results (high_apy_pools : list pool_entry) (min_apy : Q)
  : io unit :=
  match high_apy_pools with
  | [] => print (NoPools min_apy)
  | _ =>
      _ ⇐ print (FoundPools (length high_apy_pools) min_apy);
      _ ⇐ print DoubleRule;
      report_pools 1 high_apy_pools
  end.

(** ** The entry point: [main] (source lines 183-205) *)

Fixpoint ends_with_slash (s : string) : bool :=
  match s with
  | EmptyString => false
  | String c EmptyString => Ascii.eqb c "/"
  | String _ s' => ends_with_slash s'
  end.

(** [os.path.join(a, b)] on a POSIX system. *)
Definition path_join (a b : string) : string :=
  if String.prefix "/" b then b
  else if String.eqb a "" || ends_with_slash a then a +:+ b
  else a +:+ "/" +:+ b.

Inductive main_line : Type :=
  | Banner (min_apy min_usd_total : Q)
  | Filtering (msg : message)
  | Reporting (line : report_line)
  | Saved (output_file : string)
  | ErrorSaving.

(** [main]: [script_dir] is the directory of the script, [fs] what reading
    a path gives and [writable] whether writing the JSON text to a path
    succeeds. The result is the standard output and either the file
    written, if any, or the exception that left [main]. *)
Definition main (fs : string → file_outcome) (writable : string → bool)
    (script_dir : string)
  : list main_line * ran (option (string * list pool_entry)) :=
  let file_path := path_join script_dir "curvefi-all-guages.json" in
  let all_pools_file_path := path_join script_dir "all-pools.json" in
  let min_apy := 7%Q in
  let min_usd_total := 5000000%Q in
  match
    filter_high_apy_pools fs file_path all_pools_file_path
      min_apy min_usd_total
  with
  | (filtering, high_apy_pools) =>
      let out :=
        Banner min_apy min_usd_total :: (Filtering <$> filtering) in
      match print_results high_apy_pools min_apy with
      | (report, Failed e) => (out ++ (Reporting <$> report), Failed e)
      | (report, Done _) =>
          let out := out ++ (Reporting <$> report) in
          match high_apy_pools with
          | [] => (out, Done None)
          | _ =>
              let output_file :=
                path_join script_dir "high_apy_stable_pools_1m_plus.json" in
              if writable output_file
              then (out ++ [Saved output_file],
                    Done (Some (output_file, high_apy_pools)))
              else (out ++ [ErrorSaving], Done None)
          end
      end
  end.

(** The numbered titles among the lines of a report. *)
Definition titles (out : list report_line) : list (nat * string) :=
  omap (λ line, match line with
                | PoolTitle i pool_name => Some (i, pool_name)
                | _ => None
                end) out.


(** One of the two elements of the pair of a scored pool is null. *)
Definition entry_has_null (e : pool_entry) : bool :=
  is_none (py_index (gaugeCrvApy e) 0)
  || is_none (py_index (gaugeCrvApy e) 1).

Module SampleEleven.
(** Eleven qualifying gauge entries; only the last has a null in its pair,
    so the summary, which formats the first ten, prints in full. *)
Definition names : list string :=
  ["pool01"; "pool02"; "pool03"; "pool04"; "pool05";
   "pool06"; "pool07"; "pool08"; "pool09"; "pool10"].

Definition items : list (string * json) :=
  ((λ pool_name, (pool_name, Sample.record Sample.pair_5_6)) <$> names)
  ++ [("pool11", SampleNull.info)].

(** The two files beside a script in the directory "/srv". *)
Definition fs (path : string) : file_outcome :=
  if String.eqb path "/srv/curvefi-all-guages.json"
  then Parsed (Sample.gauges items)
  else if String.eqb path "/srv/all-pools.json"
  then Parsed (Sample.pools [Sample.pool "0xaa" 6000000 [Sample.reward 3]])
  else Missing.

Definition last_scored : pool_entry :=
  scored SampleNull.usd_lk SampleNull.extra_lk "pool11" SampleNull.info
    ((0 + (0 + 3))%Q, (6 + (0 + 3))%Q).

End SampleEleven.

Module SampleUnreadable.
(** A gauges file whose bytes are not text. *)
Definition fs (path : string) : file_outcome :=
  if String.eqb path "gauges.json" then Unreadable UnicodeDecodeError
  else Sample.fs path.
End SampleUnreadable.

Module SampleMain.
(** The files of [Sample.fs] beside a script in the directory "/srv". *)
Definition fs (path : string) : file_outcome :=
  if String.eqb path "/srv/curvefi-all-guages.json"
  then Sample.fs "gauges.json"
  else if String.eqb path "/srv/all-pools.json"
  then Sample.fs "pools.json"
  else Missing.
End SampleMain.
(** ** Arithmetic on the rationals *)

Lemma Qltb_lt (x y : Q) : Qltb x y = true ↔ (x < y)%Q.
Proof. unfold Qltb, Qlt. apply Z.ltb_lt. Qed.

Lemma Qltb_ge (x y : Q) : Qltb x y = false ↔ (y <= x)%Q.
Proof. unfold Qltb, Qle. apply Z.ltb_ge. Qed.

Lemma Qltb_false_le_bool (x y : Q) : Qltb x y = false ↔ Qle_bool y x = true.
Proof. rewrite Qltb_ge, Qle_bool_iff. done. Qed.

Lemma Qplus_0_r_eq (q : Q) : (q + 0)%Q = q.
Proof.
  destruct q as [a b]. unfold Qplus. simpl.
  rewrite Z.mul_1_r, Z.add_0_r, Pos.mul_1_r. done.
Qed.

Lemma py_max_spec a b :
  (a <= py_max a b)%Q ∧ (b <= py_max a b)%Q ∧
  (py_max a b = a ∨ py_max a b = b).
Proof.
  unfold py_max. destruct (Qltb a b) eqn:H.
  - apply Qltb_lt in H. split_and!; [by apply Qlt_le_weak|apply Qle_refl|by right].
  - apply Qltb_ge in H. split_and!; [apply Qle_refl|done|by left].
Qed.

(** ** The look-up dictionaries *)

Lemma present_apys_cons o rewards :
  present_apys (JObj o :: rewards) =
  match dict_get "apy" o ≫= as_num with
  | Some x => x :: present_apys rewards
  | None => present_apys rewards
  end.
Proof. done. Qed.

Lemma sum_rewards_spec rewards : ∀ acc q,
  sum_rewards acc rewards = Ok q →
  q = fold_left Qplus (present_apys rewards) acc.
Proof.
  induction rewards as [|reward rewards IH]; intros acc q H.
  - by simplify_eq/=.
  - cbn [sum_rewards] in H.
    destruct reward as [ | | | | |o]; try done.
    rewrite present_apys_cons. cbn [py_get mbind res_bind] in H.
    unfold py_radd in H.
    destruct (dict_get "apy" o) as [v|]; simpl in H |- *.
    + destruct (as_num v) as [x|]; [|done]. by apply IH.
    + rewrite Qplus_0_r_eq in H. by apply IH.
Qed.

Lemma sum_rewards_app l1 l2 : ∀ acc,
  sum_rewards acc (l1 ++ l2) = sum_rewards acc l1 ≫= λ acc', sum_rewards acc' l2.
Proof.
  induction l1 as [|reward l1 IH]; intros acc; [done|].
  cbn [app sum_rewards].
  destruct (py_get reward "apy" (JNum 0)) as [apy|]; [|done].
  cbn [mbind res_bind].
  destruct (py_radd acc apy) as [acc'|]; [|done].
  cbn [mbind res_bind]. apply IH.
Qed.

Lemma sum_rewards_no_apy o rewards acc :
  dict_get "apy" o = None →
  sum_rewards acc (JObj o :: rewards) = sum_rewards acc rewards.
Proof.
  intros H. cbn [sum_rewards py_get]. rewrite H. simpl.
  by rewrite Qplus_0_r_eq.
Qed.

Lemma sum_rewards_skip_no_apy o l1 l2 acc :
  dict_get "apy" o = None →
  sum_rewards acc (l1 ++ JObj o :: l2) = sum_rewards acc (l1 ++ l2).
Proof.
  intros H. rewrite !sum_rewards_app.
  destruct (sum_rewards acc l1) as [acc'|]; [|done].
  cbn [mbind res_bind]. by apply sum_rewards_no_apy.
Qed.

Lemma extra_rewards_list po l :
  dict_get "gaugeRewards" po = Some (JArr l) →
  extra_rewards (JObj po) =
  match l with
  | [] => Ok 0%Q
  | _ => sum_rewards 0 l
  end.
Proof.
  intros H. unfold extra_rewards. cbn [py_get mbind res_bind].
  rewrite H. by destruct l.
Qed.

Lemma extra_rewards_spec pool q :
  extra_rewards pool = Ok q → q = apy_sum pool.
Proof.
  destruct pool as [ | | | | |o]; try done.
  unfold extra_rewards, apy_sum, reward_list.
  cbn [py_get mbind res_bind field].
  destruct (dict_get "gaugeRewards" o) as [[ |b|x|s|l|o']|]; simpl.
  - by intros [= <-].
  - by destruct b; [|intros [= <-]].
  - by destruct (Qeq_bool x 0); [intros [= <-]|].
  - destruct s; [by intros [= <-]|done].
  - destruct l; [by intros [= <-]|]. apply sum_rewards_spec.
  - destruct o' as [|[]]; [by intros [= <-]|done].
  - by intros [= <-].
Qed.

Lemma index_pool_inv lk pool lk' :
  index_pool lk pool = Ok lk' →
  ∃ k q, pool_key pool = Ok k ∧ extra_rewards pool = Ok q ∧
    lk' = (<[k := usd_of pool]> (fst lk), <[k := q]> (snd lk)).
Proof.
  unfold index_pool. intros H.
  destruct (pool_key pool) as [k|] eqn:Hk; [|done].
  destruct pool as [ | | | | |o]; try done.
  cbn [py_get mbind res_bind] in H.
  destruct (extra_rewards (JObj o)) as [q|]; [|done].
  exists k, q. by simplify_eq/=.
Qed.

Lemma index_pools_app l1 l2 : ∀ lk,
  index_pools lk (l1 ++ l2) = index_pools lk l1 ≫= λ lk', index_pools lk' l2.
Proof.
  induction l1 as [|pool l1 IH]; intros lk; [done|].
  cbn [app index_pools].
  destruct (index_pool lk pool) as [lk1|]; [|done].
  cbn [mbind res_bind]. apply IH.
Qed.

Lemma joined_pool_cons k pool pools :
  joined_pool k (pool :: pools) =
  match joined_pool k pools with
  | Some p => Some p
  | None => if decide (pool_key pool = Ok k) then Some pool else None
  end.
Proof.
  unfold joined_pool. rewrite filter_cons.
  case_decide; [by rewrite last_cons|].
  by destruct (last _).
Qed.

(** After the loop over [poolData] a key holds the values of the last
    record with that key, and what it held before when there is none. *)
Lemma index_pools_lookup pools : ∀ lk lk' k,
  index_pools lk pools = Ok lk' →
  fst lk' !! k = from_option (λ p, Some (usd_of p)) (fst lk !! k)
                   (joined_pool k pools) ∧
  snd lk' !! k = from_option (λ p, Some (apy_sum p)) (snd lk !! k)
                   (joined_pool k pools).
Proof.
  induction pools as [|pool pools IH]; intros lk lk' k H.
  - by simplify_eq/=.
  - cbn [index_pools] in H.
    destruct (index_pool lk pool) as [lk1|] eqn:H1; [|done].
    cbn [mbind res_bind] in H.
    apply index_pool_inv in H1 as (kp & q & Hkp & Hq & ->).
    apply extra_rewards_spec in Hq as ->.
    destruct (IH _ _ k H) as [-> ->]. rewrite joined_pool_cons.
    destruct (joined_pool k pools) as [p|]; [done|]. cbn [from_option fst snd].
    rewrite Hkp. case_decide; simplify_eq.
    + by rewrite !lookup_insert_eq.
    + rewrite !lookup_insert_ne by congruence. done.
Qed.

Lemma build_lookups_lookup pools usd_lk extra_lk k :
  build_lookups pools = Ok (usd_lk, extra_lk) →
  usd_lk !! k = usd_of <$> joined_pool k pools ∧
  extra_lk !! k = apy_sum <$> joined_pool k pools.
Proof.
  intros H. apply (index_pools_lookup _ _ _ k) in H. cbn [fst snd] in H.
  rewrite !lookup_empty in H. by destruct (joined_pool k pools).
Qed.

Lemma build_lookups_member l1 pool l2 lk :
  build_lookups (l1 ++ pool :: l2) = Ok lk →
  extra_rewards pool = Ok (apy_sum pool).
Proof.
  unfold build_lookups. rewrite index_pools_app. intros H.
  destruct (index_pools _ l1) as [lk1|]; [|done].
  cbn [mbind res_bind index_pools] in H.
  destruct (index_pool lk1 pool) as [lk2|] eqn:H2; [|done].
  apply index_pool_inv in H2 as (k & q & _ & Hq & _).
  by rewrite Hq, (extra_rewards_spec _ _ Hq).
Qed.

Lemma filter_key_none k pools :
  (∀ p, p ∈ pools → pool_key p ≠ Ok k) →
  filter (λ pool, pool_key pool = Ok k) pools = [].
Proof.
  induction pools as [|p pools IH]; intros H; [done|].
  rewrite filter_cons, decide_False by (apply H; left).
  apply IH. intros p' Hp'. apply H. by right.
Qed.

Lemma joined_pool_last k l1 pool l2 :
  pool_key pool = Ok k →
  (∀ p, p ∈ l2 → pool_key p ≠ Ok k) →
  joined_pool k (l1 ++ pool :: l2) = Some pool.
Proof.
  intros Hk Hl2. unfold joined_pool.
  rewrite filter_app, filter_cons, decide_True by done.
  rewrite (filter_key_none k l2) by done. apply last_snoc.
Qed.

Lemma joined_pool_none k pools :
  (∀ p, p ∈ pools → pool_key p ≠ Ok k) → joined_pool k pools = None.
Proof.
  intros H. unfold joined_pool. by rewrite filter_key_none.
Qed.

Lemma lookups_of_last_record l1 pool l2 k usd_lk extra_lk :
  build_lookups (l1 ++ pool :: l2) = Ok (usd_lk, extra_lk) →
  pool_key pool = Ok k →
  (∀ p, p ∈ l2 → pool_key p ≠ Ok k) →
  usd_lk !! k = Some (usd_of pool) ∧ extra_lk !! k = Some (apy_sum pool).
Proof.
  intros Hlk Hk Hlast.
  destruct (build_lookups_lookup _ _ _ k Hlk) as [-> ->].
  by rewrite joined_pool_last.
Qed.

(** ** The loop body against the qualification rules *)

Lemma bad_gauge_crv_apy_false (g : json) :
  bad_gauge_crv_apy g = false ↔ ∃ g0 g1, g = JArr [g0; g1].
Proof.
  split.
  - unfold bad_gauge_crv_apy.
    destruct g as [ | b | q | s | l | o]; simpl; rewrite ?orb_true_r; try done.
    destruct l as [|g0 [|g1 [|g2 l]]]; try done. eauto.
  - intros (g0 & g1 & ->). done.
Qed.

Lemma scan_entry_frame usd_lk extra_lk min_apy min_usd_total st pool_name info :
  scan_entry usd_lk extra_lk min_apy min_usd_total st pool_name info =
  match scan_entry usd_lk extra_lk min_apy min_usd_total ([], []) pool_name info
  with
  | Ok (h, d) => Ok (fst st ++ h, snd st ++ d)
  | Raise e => Raise e
  end.
Proof.
  destruct st as [h0 d0].
  unfold scan_entry, mbind, res_bind. simpl.
  repeat case_match; simplify_eq; simpl; rewrite ?app_nil_r; done.
Qed.

Lemma scan_entry_inv usd_lk extra_lk min_apy min_usd_total pool_name info h d :
  scan_entry usd_lk extra_lk min_apy min_usd_total ([], []) pool_name info
    = Ok (h, d) →
  (qualifies usd_lk min_usd_total pool_name info = false ∧ h = [] ∧ d = []) ∨
  (qualifies usd_lk min_usd_total pool_name info = true ∧
   ∃ t, total_apy extra_lk info = Some t ∧
     h = (if above min_apy t
          then [scored usd_lk extra_lk pool_name info t] else []) ∧
     d = (if above 0 t then [reported extra_lk pool_name info] else [])).
Proof.
  intros H.
  destruct info as [ | b | q | s | l | o]; try done.
  unfold scan_entry in H. cbn [py_get mbind res_bind] in H.
  unfold qualifies, qualifies_1_4, usd_at_least, total_apy, scored, reported.
  unfold is_pool, has_no_crv, is_stable, crv_pair, joined_usd, joined_extra.
  cbn [field].
  destruct (truthy (default (JBool false) (dict_get "isPool" o)));
    cbn [negb] in H; [|left; by simplify_eq].
  destruct (bad_gauge_crv_apy _) eqn:Hg in H.
  { left. simplify_eq. split; [|done].
    destruct (dict_get "gaugeCrvApy" o) as [g|]; [|done].
    destruct g as [ | | | |[|g0 [|g1 [|g2 l]]]|]; done. }
  apply bad_gauge_crv_apy_false in Hg as (g0 & g1 & Hg).
  destruct (dict_get "gaugeCrvApy" o) as [g|] eqn:Hgo; [|done].
  simpl in Hg. subst g. simpl in H.
  destruct (truthy (default (JBool false) (dict_get "hasNoCrv" o)));
    [left; by simplify_eq|].
  replace (bool_decide (is_Some (Some (g0, g1)))) with true
    by (symmetry; apply bool_decide_eq_true; eauto).
  cbn [andb negb].
  assert (not_stable (default JNull (dict_get "type" o)) =
          negb match dict_get "type" o with
               | Some (JStr s) => String.eqb s "stable"
               | _ => false
               end) as Hns.
  { by destruct (dict_get "type" o) as [[ | | | s | | ]|]. }
  rewrite Hns in H. clear Hns.
  destruct (match dict_get "type" o with
            | Some (JStr s) => String.eqb s "stable"
            | _ => false
            end); cbn [negb andb] in *; [|left; by simplify_eq].
  unfold name_allowed.
  destruct (contains "btc" (lower pool_name));
    cbn [negb andb orb] in *; [left; by simplify_eq|].
  destruct (contains "eth" (lower pool_name));
    cbn [negb andb orb] in *; [left; by simplify_eq|].
  destruct (join_key (JObj o)) as [k|e]; [|done].
  cbn [mbind res_bind] in H. unfold py_lt, py_add in H.
  destruct (as_num (default (JNum 0) (usd_lk !! k))) as [q|]; [|done].
  cbn [mbind res_bind] in H.
  destruct (Qltb q min_usd_total) eqn:Hlt.
  { left. simplify_eq. split; [|done].
    apply not_true_is_false. rewrite Qle_bool_iff.
    apply Qltb_lt in Hlt. by apply Qlt_not_le. }
  apply Qltb_false_le_bool in Hlt. rewrite Hlt.
  destruct (as_num (base_apy g0)) as [b0|]; [|done].
  cbn [mbind res_bind] in H.
  destruct (as_num (base_apy g1)) as [b1|]; [|done].
  cbn [mbind res_bind] in H.
  right. split; [done|]. eexists. split; [done|].
  unfold above. cbn [fst snd]. by simplify_eq.
Qed.

Lemma scan_entry_spec usd_lk extra_lk min_apy min_usd_total pool_name info h d :
  scan_entry usd_lk extra_lk min_apy min_usd_total ([], []) pool_name info
    = Ok (h, d) →
  h = spec_result usd_lk extra_lk min_apy min_usd_total (pool_name, info) ∧
  d = spec_report usd_lk extra_lk min_usd_total (pool_name, info).
Proof.
  intros H. unfold spec_result, spec_report. cbn [fst snd].
  apply scan_entry_inv in H as [(-> & -> & ->)|(-> & t & -> & -> & ->)]; done.
Qed.


Lemma scan_entry_below usd_lk extra_lk min_apy min_usd_total st
    pool_name info k :
  join_key info = Ok k →
  usd_lk !! k = None →
  (0 < min_usd_total)%Q →
  scan_entry usd_lk extra_lk min_apy min_usd_total st pool_name info = Ok st.
Proof.
  intros Hk Hnone Hpos. unfold scan_entry.
  destruct info as [ | | | | |o]; try done.
  cbn [py_get mbind res_bind].
  destruct (negb _); [done|]. destruct (bad_gauge_crv_apy _); [done|].
  destruct (truthy _); [done|]. destruct (not_stable _); [done|].
  destruct (_ || _); [done|].
  rewrite Hk. cbn [mbind res_bind]. rewrite Hnone. simpl.
  apply Qltb_lt in Hpos. by rewrite Hpos.
Qed.

Lemma qualifies_join usd_lk min_usd_total pool_name info :
  qualifies usd_lk min_usd_total pool_name info = true →
  ∃ k q, join_key info = Ok k ∧
    joined_usd usd_lk info = default (JNum 0) (usd_lk !! k) ∧
    as_num (joined_usd usd_lk info) = Some q ∧ (min_usd_total <= q)%Q.
Proof.
  unfold qualifies, usd_at_least, joined_usd.
  intros [_ H]%andb_prop.
  destruct (join_key info) as [k|]; [|done].
  destruct (as_num _) as [q|] eqn:Hq; [|done].
  exists k, q. by rewrite <- Qle_bool_iff.
Qed.

Lemma total_apy_inv extra_lk info t :
  total_apy extra_lk info = Some t →
  ∃ g0 g1 b0 b1,
    field info "gaugeCrvApy" = Some (JArr [g0; g1]) ∧
    as_num (base_apy g0) = Some b0 ∧ as_num (base_apy g1) = Some b1 ∧
    t = ((b0 + joined_extra extra_lk info)%Q,
         (b1 + joined_extra extra_lk info)%Q).
Proof.
  unfold total_apy, crv_pair. intros H.
  destruct (field info "gaugeCrvApy")
    as [[ | | | |[|g0 [|g1 [|g2 l]]]|]|]; try done.
  destruct (as_num (base_apy g0)) as [b0|] eqn:Hb0; [|done].
  destruct (as_num (base_apy g1)) as [b1|] eqn:Hb1; [|done].
  exists g0, g1, b0, b1. by simplify_eq.
Qed.

Lemma elem_of_spec_result usd_lk extra_lk min_apy min_usd_total item e :
  e ∈ spec_result usd_lk extra_lk min_apy min_usd_total item ↔
  qualifies usd_lk min_usd_total (fst item) (snd item) = true ∧
  ∃ t, total_apy extra_lk (snd item) = Some t ∧ above min_apy t = true ∧
       e = scored usd_lk extra_lk (fst item) (snd item) t.
Proof.
  unfold spec_result. split.
  - destruct (qualifies _ _ _ _); [|by intros ?%elem_of_nil].
    destruct (total_apy _ _) as [t|]; [|by intros ?%elem_of_nil].
    destruct (above _ _) eqn:Ha; [|by intros ?%elem_of_nil].
    intros ->%list_elem_of_singleton. eauto.
  - intros (-> & t & -> & -> & ->). by apply list_elem_of_singleton.
Qed.

Lemma elem_of_spec_report usd_lk extra_lk min_usd_total item p :
  p ∈ spec_report usd_lk extra_lk min_usd_total item ↔
  qualifies usd_lk min_usd_total (fst item) (snd item) = true ∧
  ∃ t, total_apy extra_lk (snd item) = Some t ∧ above 0 t = true ∧
       p = reported extra_lk (fst item) (snd item).
Proof.
  unfold spec_report. split.
  - destruct (qualifies _ _ _ _); [|by intros ?%elem_of_nil].
    destruct (total_apy _ _) as [t|]; [|by intros ?%elem_of_nil].
    destruct (above _ _) eqn:Ha; [|by intros ?%elem_of_nil].
    intros ->%list_elem_of_singleton. eauto.
  - intros (-> & t & -> & -> & ->). by apply list_elem_of_singleton.
Qed.

(** A record that passes the six items and whose totals can be computed is
    scored by the loop body. *)
Lemma scan_entry_qualifying usd_lk extra_lk min_apy min_usd_total
    pool_name info t :
  qualifies usd_lk min_usd_total pool_name info = true →
  total_apy extra_lk info = Some t →
  scan_entry usd_lk extra_lk min_apy min_usd_total ([], []) pool_name info =
  Ok (if above min_apy t
      then [scored usd_lk extra_lk pool_name info t] else [],
      if above 0 t then [reported extra_lk pool_name info] else []).
Proof.
  intros Hq Ht.
  apply total_apy_inv in Ht as (g0 & g1 & b0 & b1 & Hg & Hb0 & Hb1 & ->).
  destruct info as [ | | | | |o]; try done. cbn [field] in Hg.
  unfold qualifies, qualifies_1_4, name_allowed, usd_at_least in Hq.
  unfold is_pool, has_no_crv, is_stable, joined_usd in Hq. cbn [field] in Hq.
  apply andb_prop in Hq as [[[[[H1 _]%andb_prop H3]%andb_prop H4]%andb_prop
                              [Hb He]%andb_prop]%andb_prop Hu].
  apply negb_true_iff in H3, Hb, He.
  unfold scan_entry. cbn [py_get mbind res_bind].
  rewrite H1, Hg. cbn [negb].
  change (default JNull (Some (JArr [g0; g1]))) with (JArr [g0; g1]).
  change (bad_gauge_crv_apy (JArr [g0; g1])) with false. cbv iota.
  rewrite H3.
  assert (not_stable (default JNull (dict_get "type" o)) = false) as ->.
  { destruct (dict_get "type" o) as [[ | | |s| | ]|]; try done.
    simpl. by rewrite H4. }
  rewrite Hb, He. cbn [orb].
  unfold above, scored, reported, joined_usd, joined_extra. cbn [field fst snd].
  rewrite Hg.
  change (default JNull (Some (JArr [g0; g1]))) with (JArr [g0; g1]).
  destruct (join_key (JObj o)) as [k|]; [|done].
  cbn [mbind res_bind]. unfold py_lt.
  destruct (as_num (default (JNum 0) (usd_lk !! k))) as [q|]; [|done].
  cbn [mbind res_bind].
  apply Qltb_false_le_bool in Hu. rewrite Hu.
  cbn [py_index nth]. unfold py_add. rewrite Hb0, Hb1. done.
Qed.

(** What the loop body appends carries the values found under the join key
    of the record in the two look-ups, or their defaults. *)
Lemma scan_entry_joined usd_lk extra_lk min_apy min_usd_total
    pool_name info k h d :
  join_key info = Ok k →
  scan_entry usd_lk extra_lk min_apy min_usd_total ([], []) pool_name info
    = Ok (h, d) →
  Forall (λ e, usd_total e = default (JNum 0) (usd_lk !! k) ∧
               extra_rewards_apy e = default 0%Q (extra_lk !! k)) h ∧
  Forall (λ p, apy_extra_rewards_apy p = default 0%Q (extra_lk !! k)) d.
Proof.
  intros Hk [(_ & -> & ->)|(_ & t & _ & -> & ->)]%scan_entry_inv.
  { split; constructor. }
  split.
  - destruct (above min_apy t); repeat constructor;
      cbn [scored usd_total extra_rewards_apy];
      unfold joined_usd, joined_extra; by rewrite Hk.
  - destruct (above 0 t); repeat constructor.
    cbn [reported apy_extra_rewards_apy]. unfold joined_extra. by rewrite Hk.
Qed.

(** A record whose joined [usdTotal] is below the threshold leaves both
    lists of the loop as they are. *)
Lemma scan_entry_low usd_lk extra_lk min_apy min_usd_total st
    pool_name info k q :
  join_key info = Ok k →
  as_num (default (JNum 0) (usd_lk !! k)) = Some q →
  (q < min_usd_total)%Q →
  scan_entry usd_lk extra_lk min_apy min_usd_total st pool_name info = Ok st.
Proof.
  intros Hk Hq Hlt. unfold scan_entry.
  destruct info as [ | | | | |o]; try done.
  cbn [py_get mbind res_bind].
  destruct (negb _); [done|]. destruct (bad_gauge_crv_apy _); [done|].
  destruct (truthy _); [done|]. destruct (not_stable _); [done|].
  destruct (_ || _); [done|].
  rewrite Hk. cbn [mbind res_bind]. unfold py_lt. rewrite Hq.
  cbn [mbind res_bind]. apply Qltb_lt in Hlt. by rewrite Hlt.
Qed.

(** A record whose join key is in neither look-up is treated as it is with
    empty look-ups. *)
Lemma scan_entry_unmatched usd_lk extra_lk min_apy min_usd_total st
    pool_name info k :
  join_key info = Ok k →
  usd_lk !! k = None →
  extra_lk !! k = None →
  scan_entry usd_lk extra_lk min_apy min_usd_total st pool_name info =
  scan_entry ∅ ∅ min_apy min_usd_total st pool_name info.
Proof.
  intros Hk Hu Hx. unfold scan_entry.
  destruct info as [ | | | | |o]; try done.
  cbn [py_get mbind res_bind].
  destruct (negb _); [done|]. destruct (bad_gauge_crv_apy _); [done|].
  destruct (truthy _); [done|]. destruct (not_stable _); [done|].
  destruct (_ || _); [done|].
  rewrite Hk. cbn [mbind res_bind]. by rewrite Hu, Hx, !lookup_empty.
Qed.

(** ** The loop *)

Lemma scan_frame usd_lk extra_lk min_apy min_usd_total items : ∀ st,
  scan usd_lk extra_lk min_apy min_usd_total st items =
  match scan usd_lk extra_lk min_apy min_usd_total ([], []) items with
  | Ok (h, d) => Ok (fst st ++ h, snd st ++ d)
  | Raise e => Raise e
  end.
Proof.
  induction items as [|[n info] items IH]; intros st.
  - simpl. rewrite !app_nil_r. by destruct st.
  - cbn [scan]. rewrite (scan_entry_frame _ _ _ _ st).
    destruct (scan_entry _ _ _ _ ([], []) n info) as [[h1 d1]|e]; [|done].
    cbn [mbind res_bind]. rewrite (IH (_, _)), (IH (h1, d1)).
    destruct (scan _ _ _ _ ([], []) items) as [[h2 d2]|e]; [|done].
    cbn [fst snd]. by rewrite ?app_nil_l, !app_assoc.
Qed.


(** A loop that completes has built exactly the two lists of the
    specification, in the order of the gauge entries. *)
Lemma scan_spec usd_lk extra_lk min_apy min_usd_total items : ∀ h d,
  scan usd_lk extra_lk min_apy min_usd_total ([], []) items = Ok (h, d) →
  h = items ≫= spec_result usd_lk extra_lk min_apy min_usd_total ∧
  d = items ≫= spec_report usd_lk extra_lk min_usd_total.
Proof.
  induction items as [|[n info] items IH]; intros h d H.
  - by simplify_eq/=.
  - cbn [scan] in H.
    destruct (scan_entry _ _ _ _ ([], []) n info) as [[h1 d1]|e] eqn:H1;
      [|done].
    cbn [mbind res_bind] in H. rewrite scan_frame in H.
    destruct (scan _ _ _ _ ([], []) items) as [[h2 d2]|e] eqn:H2; [|done].
    apply scan_entry_spec in H1 as [-> ->].
    destruct (IH _ _ eq_refl) as [-> ->].
    by simplify_eq/=.
Qed.

Lemma spec_result_origin usd_lk extra_lk min_apy min_usd_total items :
  origin <$> (items ≫= spec_result usd_lk extra_lk min_apy min_usd_total)
    `sublist_of` items.
Proof.
  induction items as [|[n info] items IH]; [done|].
  rewrite bind_cons, fmap_app. unfold spec_result at 1. cbn [fst snd].
  destruct (qualifies _ _ _ _); [|by apply sublist_cons].
  destruct (total_apy _ _) as [t|]; [|by apply sublist_cons].
  destruct (above _ _); [|by apply sublist_cons].
  by apply sublist_skip.
Qed.

(** ** The sort *)

Lemma insert_desc_perm e l : insert_desc e l ≡ₚ e :: l.
Proof.
  induction l as [|y l IH]; [done|]. cbn [insert_desc].
  destruct (Qltb (max_apy e) (max_apy y)); [|done].
  rewrite IH. apply Permutation_swap.
Qed.

Lemma sort_desc_perm l : sort_desc l ≡ₚ l.
Proof.
  induction l as [|e l IH]; [done|].
  unfold sort_desc in *. cbn [foldr]. by rewrite insert_desc_perm, IH.
Qed.

Lemma elem_of_sort_desc e l : e ∈ sort_desc l ↔ e ∈ l.
Proof. by rewrite sort_desc_perm. Qed.

(** ** The function against its loop *)

Lemma invalid_structure_spec v :
  match invalid_structure v with
  | Ok flag => flag = negb (has_success_and_data v)
  | Raise _ => has_success_and_data v = false
  end.
Proof.
  destruct v as [ | | | | |o]; try done.
  unfold invalid_structure, has_success_and_data.
  cbn [py_get mbind res_bind].
  by destruct (truthy (default JNull (dict_get "success" o))).
Qed.

Lemma is_error_except e : is_error (except e) = true.
Proof. by destruct e. Qed.

(** A non-empty result comes from a run in which both documents were read,
    the look-ups built and the loop completed; it is the sorted list of the
    loop. *)
Lemma filter_high_apy_pools_inv fs file_path all_pools_file_path
    min_apy min_usd_total :
  (filter_high_apy_pools fs file_path all_pools_file_path
     min_apy min_usd_total).2 = [] ∨
  ∃ usd_lk extra_lk h d,
    build_lookups (pool_records fs all_pools_file_path)
      = Ok (usd_lk, extra_lk) ∧
    scan usd_lk extra_lk min_apy min_usd_total ([], [])
      (gauge_items fs file_path) = Ok (h, d) ∧
    (filter_high_apy_pools fs file_path all_pools_file_path
       min_apy min_usd_total).2 = sort_desc h.
Proof.
  unfold filter_high_apy_pools, try_body, load, gauge_items, pool_records.
  destruct (fs file_path) as [| |data|unreadable]; try (by left).
  destruct (invalid_structure data) as [[]|]; try (by left).
  destruct (fs all_pools_file_path) as [| |all_pools_data|unreadable]; try (by left).
  destruct (invalid_structure all_pools_data) as [[]|]; try (by left).
  destruct (py_getitem all_pools_data "data") as [all_data|];
    cbn [mbind res_bind]; try (by left).
  destruct (py_getitem all_data "poolData") as [pool_data|];
    cbn [mbind res_bind]; try (by left).
  destruct (py_iter pool_data) as [pools|];
    cbn [mbind res_bind]; try (by left).
  destruct (build_lookups pools) as [[usd_lk extra_lk]|] eqn:Hlk;
    cbn [mbind res_bind]; try (by left).
  destruct (py_getitem data "data") as [pools_data|];
    cbn [mbind res_bind]; try (by left).
  destruct (py_items pools_data) as [items|];
    cbn [mbind res_bind]; try (by left).
  cbn [fst snd].
  destruct (scan _ _ _ _ _ items) as [[h d]|] eqn:Hscan; try (by left).
  destruct (print_summary d) as [out [e|]]; try (by left).
  right. by exists usd_lk, extra_lk, h, d.
Qed.

(** Every entry of the result was scored from a gauge entry of Document A
    with the look-ups built from Document B. *)
Lemma result_entry_inv fs file_path all_pools_file_path
    min_apy min_usd_total e :
  e ∈ (filter_high_apy_pools fs file_path all_pools_file_path
         min_apy min_usd_total).2 →
  ∃ usd_lk extra_lk pool_name info t,
    build_lookups (pool_records fs all_pools_file_path)
      = Ok (usd_lk, extra_lk) ∧
    (pool_name, info) ∈ gauge_items fs file_path ∧
    qualifies usd_lk min_usd_total pool_name info = true ∧
    total_apy extra_lk info = Some t ∧ above min_apy t = true ∧
    e = scored usd_lk extra_lk pool_name info t.
Proof.
  intros He.
  destruct (filter_high_apy_pools_inv fs file_path all_pools_file_path
              min_apy min_usd_total)
    as [Hnil|(usd_lk & extra_lk & h & d & Hlk & Hscan & Hres)].
  { rewrite Hnil in He. by apply elem_of_nil in He. }
  rewrite Hres, elem_of_sort_desc in He.
  apply scan_spec in Hscan as [-> _].
  apply list_elem_of_bind in He as ([n info] & He & Hin).
  apply elem_of_spec_result in He as (Hq & t & Ht & Ha & ->).
  by exists usd_lk, extra_lk, n, info, t.
Qed.

(** Whenever the function reports no error, its result holds exactly the
    scored pools of the gauge entries that pass the six qualification items
    and whose range has an element strictly above [min_apy]. *)
Lemma result_iff_when_no_error fs file_path all_pools_file_path
    min_apy min_usd_total :
  Forall (λ msg, is_error msg = false)
    (filter_high_apy_pools fs file_path all_pools_file_path
       min_apy min_usd_total).1 →
  ∃ usd_lk extra_lk,
    build_lookups (pool_records fs all_pools_file_path)
      = Ok (usd_lk, extra_lk) ∧
    ∀ e, e ∈ (filter_high_apy_pools fs file_path all_pools_file_path
                min_apy min_usd_total).2 ↔
      ∃ pool_name info t,
        (pool_name, info) ∈ gauge_items fs file_path ∧
        qualifies usd_lk min_usd_total pool_name info = true ∧
        total_apy extra_lk info = Some t ∧ above min_apy t = true ∧
        e = scored usd_lk extra_lk pool_name info t.
Proof.
  unfold filter_high_apy_pools, try_body, load, gauge_items, pool_records.
  assert (∀ out e, ¬ Forall (λ msg, is_error msg = false) (out ++ [except e]))
    as Hraise.
  { intros out e H. rewrite Forall_forall in H.
    pose proof (H (except e)) as Hx. rewrite is_error_except in Hx.
    assert (true = false) by (apply Hx, elem_of_app; right; constructor).
    done. }
  assert (∀ msg, is_error msg = true →
                 ¬ Forall (λ msg, is_error msg = false) [msg]) as Hreturn.
  { intros msg Hm H. rewrite Forall_forall in H.
    pose proof (H msg) as Hx. rewrite Hm in Hx.
    assert (true = false) by (apply Hx; constructor).
    done. }
  destruct (fs file_path) as [| |data|unreadable];
    try (by intros H; apply (Hraise []) in H).
  destruct (invalid_structure data) as [[]|];
    try (by intros H; apply (Hraise []) in H);
    try (by intros H; apply Hreturn in H).
  destruct (fs all_pools_file_path) as [| |all_pools_data|unreadable];
    try (by intros H; apply (Hraise []) in H).
  destruct (invalid_structure all_pools_data) as [[]|];
    try (by intros H; apply (Hraise []) in H);
    try (by intros H; apply Hreturn in H).
  destruct (py_getitem all_pools_data "data") as [all_data|];
    cbn [mbind res_bind]; try (by intros H; apply (Hraise []) in H).
  destruct (py_getitem all_data "poolData") as [pool_data|];
    cbn [mbind res_bind]; try (by intros H; apply (Hraise []) in H).
  destruct (py_iter pool_data) as [pools|];
    cbn [mbind res_bind]; try (by intros H; apply (Hraise []) in H).
  destruct (build_lookups pools) as [[usd_lk extra_lk]|] eqn:Hlk;
    cbn [mbind res_bind]; try (by intros H; apply (Hraise []) in H).
  destruct (py_getitem data "data") as [pools_data|];
    cbn [mbind res_bind]; try (by intros H; apply (Hraise []) in H).
  destruct (py_items pools_data) as [items|];
    cbn [mbind res_bind]; try (by intros H; apply (Hraise []) in H).
  cbn [fst snd].
  destruct (scan _ _ _ _ _ items) as [[h d]|] eqn:Hscan;
    try (by intros H; apply (Hraise []) in H).
  destruct (print_summary d) as [out [e|]];
    try (by intros H; apply Hraise in H).
  intros _. exists usd_lk, extra_lk. split; [done|]. intros e. cbn [snd].
  rewrite elem_of_sort_desc. apply scan_spec in Hscan as [-> _].
  rewrite list_elem_of_bind. split.
  - intros ([n info] & He & Hin).
    apply elem_of_spec_result in He as (Hq & t & Ht & Ha & ->).
    by exists n, info, t.
  - intros (n & info & t & Hin & Hq & Ht & Ha & ->).
    exists (n, info). split; [|done].
    apply elem_of_spec_result. eauto.
Qed.

(** ** Documents that follow the data model run without an exception *)

Lemma sum_rewards_completes rewards : ∀ acc,
  forallb wf_reward rewards = true → ∃ q, sum_rewards acc rewards = Ok q.
Proof.
  induction rewards as [|reward rewards IH]; intros acc H; [by eexists|].
  cbn [forallb] in H. apply andb_prop in H as [Hr Hrs].
  destruct reward as [ | | | | |o]; try done.
  cbn [sum_rewards py_get mbind res_bind]. unfold wf_reward, numeric in Hr.
  unfold py_radd.
  destruct (dict_get "apy" o) as [v|]; simpl.
  - destruct (as_num v) as [x|]; [|done]. by apply IH.
  - by apply IH.
Qed.

Lemma index_pool_completes lk pool :
  wf_pool_record pool = true →
  numeric_values (fst lk) →
  ∃ lk', index_pool lk pool = Ok lk' ∧ numeric_values (fst lk').
Proof.
  destruct pool as [ | | | | |o]; try done.
  unfold wf_pool_record.
  intros [[Ha Hu]%andb_prop Hr]%andb_prop Hnum.
  assert (∃ k, pool_key (JObj o) = Ok k) as [k Hk].
  { unfold pool_key. cbn [py_get mbind res_bind].
    destruct (dict_get "address" o) as [[ | | |s| | ]|]; try done;
      by eexists. }
  assert (∃ q, extra_rewards (JObj o) = Ok q) as [q Hq].
  { destruct (dict_get "gaugeRewards" o) as [[ | | | |l| ]|] eqn:Hg; try done.
    - rewrite (extra_rewards_list _ _ Hg).
      destruct l; [by eexists|]. by apply sum_rewards_completes.
    - unfold extra_rewards. cbn [py_get mbind res_bind]. rewrite Hg.
      by eexists. }
  unfold index_pool. rewrite Hk. cbn [py_get mbind res_bind]. rewrite Hq.
  eexists. split; [done|]. cbn [fst]. intros k' v.
  destruct (decide (k = k')) as [->|Hne].
  - rewrite lookup_insert_eq. intros [= <-].
    by destruct (dict_get "usdTotal" o).
  - rewrite lookup_insert_ne by done. apply Hnum.
Qed.

Lemma index_pools_completes pools : ∀ lk,
  forallb wf_pool_record pools = true →
  numeric_values (fst lk) →
  ∃ lk', index_pools lk pools = Ok lk' ∧ numeric_values (fst lk').
Proof.
  induction pools as [|pool pools IH]; intros lk H Hnum; [by eexists|].
  cbn [forallb] in H. apply andb_prop in H as [Hp Hps].
  destruct (index_pool_completes lk pool Hp Hnum) as (lk1 & H1 & Hnum1).
  cbn [index_pools]. rewrite H1. cbn [mbind res_bind]. by apply IH.
Qed.

Lemma build_lookups_completes pools :
  forallb wf_pool_record pools = true →
  ∃ usd_lk extra_lk,
    build_lookups pools = Ok (usd_lk, extra_lk) ∧ numeric_values usd_lk.
Proof.
  intros H.
  destruct (index_pools_completes pools (∅, ∅) H) as ([u x] & Hlk & Hnum).
  { intros k v. cbn [fst]. by rewrite lookup_empty. }
  by exists u, x.
Qed.

Lemma scan_entry_completes usd_lk extra_lk min_apy min_usd_total
    pool_name info :
  numeric_values usd_lk →
  wf_gauge_record info = true →
  ∃ h d, scan_entry usd_lk extra_lk min_apy min_usd_total ([], [])
           pool_name info = Ok (h, d).
Proof.
  intros Hnum. destruct info as [ | | | | |o]; try done.
  unfold wf_gauge_record, crv_pair. cbn [field].
  intros [Hswap Hcrv]%andb_prop.
  unfold scan_entry. cbn [py_get mbind res_bind].
  destruct (negb _); [by eexists _, _|].
  destruct (bad_gauge_crv_apy _) eqn:Hg; [by eexists _, _|].
  apply bad_gauge_crv_apy_false in Hg as (g0 & g1 & Hg).
  destruct (dict_get "gaugeCrvApy" o) as [g|]; [|done].
  simpl in Hg. subst g. simpl in Hcrv.
  apply andb_prop in Hcrv as [H0 H1]. unfold numeric in H0, H1.
  destruct (truthy _); [by eexists _, _|].
  destruct (not_stable _); [by eexists _, _|].
  destruct (_ || _); [by eexists _, _|].
  assert (∃ k, join_key (JObj o) = Ok k) as [k ->].
  { unfold join_key. cbn [py_get mbind res_bind].
    destruct (dict_get "swap" o) as [[ | | |s| | ]|]; try done; by eexists. }
  cbn [mbind res_bind]. unfold py_lt, py_add.
  assert (∃ q, as_num (default (JNum 0) (usd_lk !! k)) = Some q) as [q ->].
  { destruct (usd_lk !! k) as [v|] eqn:Hv; [|by eexists].
    apply Hnum in Hv. unfold numeric in Hv. simpl.
    destruct (as_num v); [by eexists|done]. }
  cbn [mbind res_bind]. destruct (Qltb q min_usd_total); [by eexists _, _|].
  simpl.
  destruct (as_num (base_apy g0)); [|done].
  destruct (as_num (base_apy g1)); [|done].
  by eexists _, _.
Qed.

Lemma scan_completes usd_lk extra_lk min_apy min_usd_total items :
  numeric_values usd_lk →
  forallb (λ item, wf_gauge_record (snd item)) items = true →
  ∃ h d, scan usd_lk extra_lk min_apy min_usd_total ([], []) items
         = Ok (h, d).
Proof.
  intros Hnum. induction items as [|[n info] items IH]; intros H.
  - by eexists _, _.
  - cbn [forallb snd] in H. apply andb_prop in H as [Hi His].
    destruct (scan_entry_completes usd_lk extra_lk min_apy min_usd_total
                n info Hnum Hi) as (h1 & d1 & H1).
    destruct (IH His) as (h2 & d2 & H2).
    cbn [scan]. rewrite H1. cbn [mbind res_bind].
    rewrite scan_frame, H2. by eexists _, _.
Qed.

Lemma wf_gauges_inv data :
  wf_gauges data = true →
  ∃ top items,
    data = JObj top ∧
    truthy (default JNull (dict_get "success" top)) = true ∧
    dict_get "data" top = Some (JObj items) ∧
    forallb (λ item, wf_gauge_record (snd item)) items = true.
Proof.
  destruct data as [ | | | | |top]; try done. unfold wf_gauges.
  intros [Hs Hd]%andb_prop.
  destruct (dict_get "data" top) as [[ | | | | |items]|] eqn:Hdata; try done.
  by exists top, items.
Qed.

Lemma wf_all_pools_inv all_pools_data :
  wf_all_pools all_pools_data = true →
  ∃ top all_data pools,
    all_pools_data = JObj top ∧
    truthy (default JNull (dict_get "success" top)) = true ∧
    dict_get "data" top = Some (JObj all_data) ∧
    dict_get "poolData" all_data = Some (JArr pools) ∧
    forallb wf_pool_record pools = true.
Proof.
  destruct all_pools_data as [ | | | | |top]; try done. unfold wf_all_pools.
  intros [Hs Hd]%andb_prop.
  destruct (dict_get "data" top) as [[ | | | | |all_data]|] eqn:Hdata;
    try done.
  destruct (dict_get "poolData" all_data) as [[ | | | |pools| ]|] eqn:Hp;
    try done.
  by exists top, all_data, pools.
Qed.

(** On two documents that follow the data model the look-ups are built and
    the loop completes; only the summary can still raise. *)
Lemma well_formed_run fs file_path all_pools_file_path min_apy min_usd_total
    data all_pools_data :
  fs file_path = Parsed data →
  wf_gauges data = true →
  fs all_pools_file_path = Parsed all_pools_data →
  wf_all_pools all_pools_data = true →
  ∃ usd_lk extra_lk h d,
    build_lookups (pool_records fs all_pools_file_path)
      = Ok (usd_lk, extra_lk) ∧
    scan usd_lk extra_lk min_apy min_usd_total ([], [])
      (gauge_items fs file_path) = Ok (h, d) ∧
    filter_high_apy_pools fs file_path all_pools_file_path
      min_apy min_usd_total =
    match print_summary d with
    | (out, None) => (out, sort_desc h)
    | (out, Some e) => (out ++ [except e], [])
    end.
Proof.
  intros Ha (top & items & -> & Hs & Hd & Hitems)%wf_gauges_inv
         Hb (btop & all_data & pools & -> & Hbs & Hbd & Hpd & Hpools)
           %wf_all_pools_inv.
  destruct (build_lookups_completes pools Hpools)
    as (usd_lk & extra_lk & Hlk & Hnum).
  destruct (scan_completes usd_lk extra_lk min_apy min_usd_total items
              Hnum Hitems) as (h & d & Hscan).
  exists usd_lk, extra_lk, h, d.
  unfold pool_records, gauge_items, filter_high_apy_pools, try_body, load.
  rewrite Ha, Hb. unfold invalid_structure.
  cbn [py_get py_getitem py_items py_iter mbind res_bind].
  rewrite Hs, Hd, Hbs, Hbd. cbn [negb mbind res_bind py_getitem py_items].
  rewrite Hpd. cbn [mbind res_bind py_iter].
  rewrite !bool_decide_eq_true_2 by eauto. cbn [negb].
  rewrite Hlk. cbn [mbind res_bind fst snd]. rewrite Hscan.
  split_and!; try done.
  by destruct (print_summary d) as [out [e|]].
Qed.

Lemma format_2f_numeric v :
  numeric v = true → ∃ q, format_2f v = Ok q.
Proof.
  unfold numeric, format_2f. destruct v as [ |[]| | | | ]; try done;
    by eexists.
Qed.

Lemma print_lines_ok ps :
  Forall printable ps →
  ∃ out, print_lines ps = (out, None) ∧
         Forall (λ msg, is_error msg = false) out.
Proof.
  induction 1 as [|p ps (g0 & g1 & Hp & H0 & H1) _ (out & IH & Hout)].
  - by exists [].
  - cbn [print_lines]. unfold format_line. rewrite Hp. cbn [py_index nth].
    destruct (format_2f_numeric g0 H0) as [q0 ->].
    destruct (format_2f_numeric g1 H1) as [q1 ->].
    cbn [mbind res_bind]. rewrite IH. eexists. split; [done|].
    by constructor.
Qed.

Lemma print_summary_ok d :
  Forall printable d →
  ∃ out, print_summary d = (out, None) ∧
         Forall (λ msg, is_error msg = false) out.
Proof.
  intros H. destruct d as [|p d]; [by exists [NoNonZero]; repeat constructor|].
  unfold print_summary.
  destruct (print_lines_ok (take 10 (p :: d))) as (out & -> & Hout).
  { by apply Forall_take. }
  eexists. split; [done|]. constructor; [done|].
  apply Forall_app. split; [done|].
  destruct (10 <? _)%nat; by repeat constructor.
Qed.

Lemma spec_report_printable usd_lk extra_lk min_usd_total item p :
  crv_not_null (snd item) = true →
  p ∈ spec_report usd_lk extra_lk min_usd_total item →
  printable p.
Proof.
  intros Hnn (_ & t & Ht & _ & ->)%elem_of_spec_report.
  apply total_apy_inv in Ht as (g0 & g1 & b0 & b1 & Hg & Hb0 & Hb1 & _).
  unfold crv_not_null, crv_pair in Hnn. rewrite Hg in Hnn.
  apply andb_prop in Hnn as [Hn0 Hn1].
  exists g0, g1. unfold reported. cbn [apy_gaugeCrvApy]. rewrite Hg.
  unfold numeric, base_apy in *.
  destruct (is_none g0); [done|]. destruct (is_none g1); [done|].
  by rewrite Hb0, Hb1.
Qed.

(** On two documents that follow the data model and carry no null in a
    two-element [gaugeCrvApy], the function reports no error and its result
    holds exactly the scored pools of the gauge entries that pass the six
    qualification items and whose range is strictly above [min_apy]. *)
Lemma result_iff_well_formed_not_null fs file_path all_pools_file_path
    min_apy min_usd_total data all_pools_data :
  fs file_path = Parsed data →
  wf_gauges data = true →
  fs all_pools_file_path = Parsed all_pools_data →
  wf_all_pools all_pools_data = true →
  Forall (λ item, crv_not_null (snd item) = true)
    (gauge_items fs file_path) →
  ∃ usd_lk extra_lk,
    build_lookups (pool_records fs all_pools_file_path)
      = Ok (usd_lk, extra_lk) ∧
    ∀ e, e ∈ (filter_high_apy_pools fs file_path all_pools_file_path
                min_apy min_usd_total).2 ↔
      ∃ pool_name info t,
        (pool_name, info) ∈ gauge_items fs file_path ∧
        qualifies usd_lk min_usd_total pool_name info = true ∧
        total_apy extra_lk info = Some t ∧ above min_apy t = true ∧
        e = scored usd_lk extra_lk pool_name info t.
Proof.
  intros Ha Hwa Hb Hwb Hnn.
  apply result_iff_when_no_error.
  destruct (well_formed_run fs file_path all_pools_file_path
              min_apy min_usd_total _ _ Ha Hwa Hb Hwb)
    as (usd_lk & extra_lk & h & d & _ & Hscan & ->).
  apply scan_spec in Hscan as [_ ->].
  destruct (print_summary_ok
              (gauge_items fs file_path
                 ≫= spec_report usd_lk extra_lk min_usd_total))
    as (out & -> & Hout); [|done].
  apply Forall_forall. intros p (item & Hp & Hin)%list_elem_of_bind.
  rewrite Forall_forall in Hnn. by eapply spec_report_printable, Hp; auto.
Qed.

(** ** The examples of section 8 of the specification *)

Example example_included :
  filter_high_apy_pools Sample.fs "gauges.json" "pools.json" 7 5000000
  = ([FoundNonZero 1; PoolLine "stable3pool" 5 6 (0 + 3)],
     [Sample.stable3pool_scored]).
Proof. reflexivity. Qed.

Example example_low_liquidity :
  filter_high_apy_pools
    (Sample.files (Sample.gauges [Sample.stable3pool])
       (Sample.pools [Sample.pool "0xaa" 4000000 [Sample.reward 3]]))
    "gauges.json" "pools.json" 7 5000000
  = ([NoNonZero], []).
Proof. reflexivity. Qed.

Example example_btc_name :
  filter_high_apy_pools
    (Sample.files (Sample.gauges [("wbtcpool", Sample.record Sample.pair_5_6)])
       (Sample.pools [Sample.pool "0xaa" 6000000 [Sample.reward 3]]))
    "gauges.json" "pools.json" 7 5000000
  = ([NoNonZero], []).
Proof. reflexivity. Qed.

(** Three qualifying entries with the greatest totals 9, 12 and 9: the two
    ties keep the order of the document. *)
Example example_ties_keep_document_order :
  name <$>
    (filter_high_apy_pools
       (Sample.files
          (Sample.gauges
             [("first9", Sample.record (JArr [JNum 5; JNum 6]));
              ("only12", Sample.record (JArr [JNum 9; JNum 4]));
              ("second9", Sample.record (JArr [JNum 6; JNum 5]))])
          (Sample.pools [Sample.pool "0xaa" 6000000 [Sample.reward 3]]))
       "gauges.json" "pools.json" 7 5000000).2
  = ["only12"; "first9"; "second9"].
Proof. reflexivity. Qed.

(** ** The claims of the specification *)

(** C1 at a document the data model allows, with a null lower bound in
    [gaugeCrvApy]: the entry passes the six items and its range (3, 9) has
    an element above 7, but formatting the null for the summary raises, and
    the function prints an error and returns the empty list. *)
Theorem C1_null_crv_apy_qualifying_entry_lost :
  build_lookups (pool_records SampleNull.fs "pools.json")
    = Ok (SampleNull.usd_lk, SampleNull.extra_lk) ∧
  gauge_items SampleNull.fs "gauges.json" = [("stable3pool", SampleNull.info)] ∧
  qualifies SampleNull.usd_lk 5000000 "stable3pool" SampleNull.info = true ∧
  total_apy SampleNull.extra_lk SampleNull.info
    = Some ((0 + (0 + 3))%Q, (6 + (0 + 3))%Q) ∧
  above 7 ((0 + (0 + 3))%Q, (6 + (0 + 3))%Q) = true ∧
  scan SampleNull.usd_lk SampleNull.extra_lk 7 5000000 ([], [])
    [("stable3pool", SampleNull.info)]
    = Ok ([scored SampleNull.usd_lk SampleNull.extra_lk "stable3pool" SampleNull.info
             ((0 + (0 + 3))%Q, (6 + (0 + 3))%Q)],
          [reported SampleNull.extra_lk "stable3pool" SampleNull.info]) ∧
  print_summary [reported SampleNull.extra_lk "stable3pool" SampleNull.info]
    = ([FoundNonZero 1], Some TypeError) ∧
  filter_high_apy_pools SampleNull.fs "gauges.json" "pools.json" 7 5000000
    = ([FoundNonZero 1; ErrorOther TypeError], []).
Proof. split_and!; reflexivity. Qed.

(** C2: the score of a qualifying gauge entry. For both elements [gi] of
    its [gaugeCrvApy] pair, [total_apy_range[i]] is [0 + extra_rewards_apy]
    when [gi] is null and [gi + extra_rewards_apy] otherwise, and [max_apy]
    is [max] of the two totals. First, of the loop body: a gauge entry that
    passes the six items and whose two sums Python computes is scored with
    exactly these values, and appended when a total is above [min_apy].
    Second, of the function: every entry of the result carries such a
    score, its [extra_rewards_apy] being the sum of the [apy] values of the
    [gaugeRewards] of the pool record joined on the lower-cased swap address
    (0 when no record is joined), and its [max_apy] one of the two totals
    and less than neither. *)
Theorem C2_total_apy_range_and_max_apy fs file_path all_pools_file_path
    min_apy min_usd_total :
  (∀ usd_lk extra_lk pool_name info g0 g1 t0 t1,
     qualifies usd_lk min_usd_total pool_name info = true →
     field info "gaugeCrvApy" = Some (JArr [g0; g1]) →
     py_add (match g0 with JNull => JNum 0 | _ => g0 end)
       (joined_extra extra_lk info) = Ok t0 →
     py_add (match g1 with JNull => JNum 0 | _ => g1 end)
       (joined_extra extra_lk info) = Ok t1 →
     ∃ d,
       scan_entry usd_lk extra_lk min_apy min_usd_total ([], [])
         pool_name info =
       Ok (if Qltb min_apy t0 || Qltb min_apy t1
           then [ {| name := pool_name;
                     pool_info := info;
                     gaugeCrvApy := JArr [g0; g1];
                     extra_rewards_apy := joined_extra extra_lk info;
                     total_apy_range := (t0, t1);
                     max_apy := if Qltb t0 t1 then t1 else t0;
                     usd_total := joined_usd usd_lk info |} ]
           else [], d)) ∧
  (∀ e,
     e ∈ (filter_high_apy_pools fs file_path all_pools_file_path
            min_apy min_usd_total).2 →
     ∃ g0 g1 t0 t1 k,
       field (pool_info e) "gaugeCrvApy" = Some (JArr [g0; g1]) ∧
       gaugeCrvApy e = JArr [g0; g1] ∧
       total_apy_range e = (t0, t1) ∧
       (g0 = JNull ∧ t0 = (0 + extra_rewards_apy e)%Q ∨
        ∃ q, as_num g0 = Some q ∧ t0 = (q + extra_rewards_apy e)%Q) ∧
       (g1 = JNull ∧ t1 = (0 + extra_rewards_apy e)%Q ∨
        ∃ q, as_num g1 = Some q ∧ t1 = (q + extra_rewards_apy e)%Q) ∧
       join_key (pool_info e) = Ok k ∧
       extra_rewards_apy e =
         from_option apy_sum 0%Q
           (joined_pool k (pool_records fs all_pools_file_path)) ∧
       max_apy e = (if Qltb t0 t1 then t1 else t0) ∧
       (max_apy e = t0 ∨ max_apy e = t1) ∧
       ¬ (max_apy e < t0)%Q ∧ ¬ (max_apy e < t1)%Q).
Proof.
  split.
  - intros usd_lk extra_lk pool_name info g0 g1 t0 t1 Hq Hg H0 H1.
    assert (total_apy extra_lk info = Some (t0, t1)) as Ht.
    { unfold total_apy, crv_pair. rewrite Hg.
      assert (∀ g, base_apy g = match g with JNull => JNum 0 | _ => g end)
        as Hbase by by intros [].
      rewrite !Hbase. unfold py_add in H0, H1.
      destruct (as_num match g0 with JNull => JNum 0 | _ => g0 end);
        [|done].
      destruct (as_num match g1 with JNull => JNum 0 | _ => g1 end);
        [|done].
      by simplify_eq. }
    eexists.
    rewrite (scan_entry_qualifying _ _ _ _ _ _ _ Hq Ht).
    unfold above, scored, py_max. cbn [fst snd]. by rewrite Hg.
  - intros e
      (usd_lk & extra_lk & n & info & t & Hlk & _ & Hq & Ht & _ & ->)
      %result_entry_inv.
    apply qualifies_join in Hq as (k & q & Hk & _).
    apply total_apy_inv in Ht as (g0 & g1 & b0 & b1 & Hg & Hb0 & Hb1 & ->).
    exists g0, g1, (b0 + joined_extra extra_lk info)%Q,
      (b1 + joined_extra extra_lk info)%Q, k.
    cbn [scored pool_info gaugeCrvApy total_apy_range
      extra_rewards_apy max_apy fst snd].
    rewrite Hg.
    pose proof (py_max_spec (b0 + joined_extra extra_lk info)%Q
                  (b1 + joined_extra extra_lk info)%Q) as (Hm0 & Hm1 & Hm).
    split_and!; try done.
    + destruct g0 as [ | | | | | ]; simplify_eq/=; eauto.
    + destruct g1 as [ | | | | | ]; simplify_eq/=; eauto.
    + unfold joined_extra. rewrite Hk.
      destruct (build_lookups_lookup _ _ _ k Hlk) as [_ ->].
      by destruct (joined_pool _ _).
    + by apply Qle_not_lt.
    + by apply Qle_not_lt.
Qed.

Lemma C2_total_apy_range_and_max_apy_witness :
  (∃ d,
     scan_entry SampleNull.usd_lk SampleNull.extra_lk 7 5000000 ([], [])
       "pool11" SampleNull.info =
     Ok (if Qltb 7 (0 + (0 + 3)) || Qltb 7 (6 + (0 + 3))
         then [ {| name := "pool11";
                   pool_info := SampleNull.info;
                   gaugeCrvApy := JArr [JNull; JNum 6];
                   extra_rewards_apy :=
                     joined_extra SampleNull.extra_lk SampleNull.info;
                   total_apy_range := ((0 + (0 + 3))%Q, (6 + (0 + 3))%Q);
                   max_apy :=
                     if Qltb (0 + (0 + 3)) (6 + (0 + 3))
                     then (6 + (0 + 3))%Q else (0 + (0 + 3))%Q;
                   usd_total :=
                     joined_usd SampleNull.usd_lk SampleNull.info |} ]
         else [], d)) ∧
  SampleEleven.last_scored
    ∈ (filter_high_apy_pools SampleEleven.fs "/srv/curvefi-all-guages.json"
         "/srv/all-pools.json" 7 5000000).2 ∧
  gaugeCrvApy SampleEleven.last_scored = JArr [JNull; JNum 6] ∧
  ∃ g0 g1 t0 t1 k,
    field (pool_info SampleEleven.last_scored) "gaugeCrvApy"
      = Some (JArr [g0; g1]) ∧
    gaugeCrvApy SampleEleven.last_scored = JArr [g0; g1] ∧
    total_apy_range SampleEleven.last_scored = (t0, t1) ∧
    (g0 = JNull ∧ t0 = (0 + extra_rewards_apy SampleEleven.last_scored)%Q ∨
     ∃ q, as_num g0 = Some q ∧
          t0 = (q + extra_rewards_apy SampleEleven.last_scored)%Q) ∧
    (g1 = JNull ∧ t1 = (0 + extra_rewards_apy SampleEleven.last_scored)%Q ∨
     ∃ q, as_num g1 = Some q ∧
          t1 = (q + extra_rewards_apy SampleEleven.last_scored)%Q) ∧
    join_key (pool_info SampleEleven.last_scored) = Ok k ∧
    extra_rewards_apy SampleEleven.last_scored =
      from_option apy_sum 0%Q
        (joined_pool k (pool_records SampleEleven.fs "/srv/all-pools.json")) ∧
    max_apy SampleEleven.last_scored = (if Qltb t0 t1 then t1 else t0) ∧
    (max_apy SampleEleven.last_scored = t0 ∨
     max_apy SampleEleven.last_scored = t1) ∧
    ¬ (max_apy SampleEleven.last_scored < t0)%Q ∧
    ¬ (max_apy SampleEleven.last_scored < t1)%Q.
Proof.
  assert (SampleEleven.last_scored
            ∈ (filter_high_apy_pools SampleEleven.fs
                 "/srv/curvefi-all-guages.json" "/srv/all-pools.json"
                 7 5000000).2) as Hin.
  { vm_compute. do 10 apply list_elem_of_further. apply list_elem_of_here. }
  split; [|split; [exact Hin|split; [reflexivity|]]].
  - apply (proj1 (C2_total_apy_range_and_max_apy SampleEleven.fs
                    "/srv/curvefi-all-guages.json" "/srv/all-pools.json"
                    7 5000000)
             SampleNull.usd_lk SampleNull.extra_lk "pool11" SampleNull.info
             JNull (JNum 6)); reflexivity.
  - exact (proj2 (C2_total_apy_range_and_max_apy SampleEleven.fs
                    "/srv/curvefi-all-guages.json" "/srv/all-pools.json"
                    7 5000000) SampleEleven.last_scored Hin).
Defined.

(** C3 at a document with two gauge entries that pass items 1-4 and have
    the range (8, 9): "wbtcpool" is stopped by the name check and "lowpool"
    by the liquidity threshold. The block that collects "all pools with
    non-zero APY" stands after both checks, so neither entry reaches the
    diagnostic list: the loop ends with both lists empty and the function
    prints that no pool has a non-zero APY. *)
Theorem C3_filtered_entries_missing_from_summary :
  build_lookups (pool_records SampleFiltered.fs "pools.json")
    = Ok (SampleFiltered.usd_lk, SampleFiltered.extra_lk) ∧
  gauge_items SampleFiltered.fs "gauges.json" = SampleFiltered.items ∧
  Forall (λ item,
            qualifies_1_4 (snd item) = true ∧
            total_apy SampleFiltered.extra_lk (snd item)
              = Some ((5 + (0 + 3))%Q, (6 + (0 + 3))%Q) ∧
            above 0 ((5 + (0 + 3))%Q, (6 + (0 + 3))%Q) = true)
         SampleFiltered.items ∧
  name_allowed "wbtcpool" = false ∧
  py_lt (JNum 4000000) 5000000 = Ok true ∧
  scan SampleFiltered.usd_lk SampleFiltered.extra_lk 7 5000000 ([], [])
    SampleFiltered.items = Ok ([], []) ∧
  filter_high_apy_pools SampleFiltered.fs "gauges.json" "pools.json" 7 5000000
    = ([NoNonZero], []).
Proof.
  split_and!; try reflexivity.
  repeat constructor.
Qed.

(** C4: when a source file does not exist, is not valid JSON, cannot be
    read, or parses to a document without a truthy [success] flag and a
    [data] payload, the function prints one error message and returns the
    empty list; being a total function of its inputs, it raises nothing. *)
Theorem C4_unusable_source_error_and_empty_result fs file_path
    all_pools_file_path min_apy min_usd_total :
  unusable (fs file_path) = true ∨ unusable (fs all_pools_file_path) = true →
  ∃ msg, is_error msg = true ∧
    filter_high_apy_pools fs file_path all_pools_file_path
      min_apy min_usd_total = ([msg], []).
Proof.
  intros H. unfold filter_high_apy_pools, try_body, load.
  destruct (fs file_path) as [| |data|unreadable];
    [error_printed|error_printed| |destruct unreadable; error_printed].
  pose proof (invalid_structure_spec data) as Ha.
  destruct (invalid_structure data) as [[]|e];
    [error_printed| |destruct e; error_printed].
  destruct H as [H|H]; [cbn [unusable] in H; congruence|].
  destruct (fs all_pools_file_path) as [| |all_pools_data|unreadable];
    [error_printed|error_printed| |destruct unreadable; error_printed].
  pose proof (invalid_structure_spec all_pools_data) as Hb.
  destruct (invalid_structure all_pools_data) as [[]|e];
    [error_printed| |destruct e; error_printed].
  cbn [unusable] in H. congruence.
Qed.

Lemma C4_unusable_source_error_and_empty_result_witness :
  (unusable (Sample.fs "gauges.json") = true ∨
   unusable (Sample.fs "absent.json") = true) ∧
  ∃ msg, is_error msg = true ∧
    filter_high_apy_pools Sample.fs "gauges.json" "absent.json" 7 5000000
      = ([msg], []).
Proof.
  assert (unusable (Sample.fs "gauges.json") = true ∨
          unusable (Sample.fs "absent.json") = true) as H.
  { right. reflexivity. }
  split; [exact H|].
  exact (C4_unusable_source_error_and_empty_result Sample.fs
           "gauges.json" "absent.json" 7 5000000 H).
Defined.

(** C6: a gauge entry whose lower-cased swap address is the address of no
    pool record is read by the loop with [usdTotal] 0 and extra rewards 0:
    the liquidity check compares 0 with [minUsdTotal] and raises nothing,
    the loop body does with the entry what it does with empty look-ups, and
    every entry it appends carries the two zeros. When [minUsdTotal] is
    positive the body leaves both lists as they are, raising nothing; an
    entry of the result that comes from such a gauge entry carries the two
    zeros, and [minUsdTotal] is not positive. *)
Theorem C6_unmatched_address_defaults_and_exclusion fs file_path
    all_pools_file_path min_apy min_usd_total usd_lk extra_lk
    pool_name info k :
  build_lookups (pool_records fs all_pools_file_path)
    = Ok (usd_lk, extra_lk) →
  join_key info = Ok k →
  (∀ p, p ∈ pool_records fs all_pools_file_path → pool_key p ≠ Ok k) →
  py_lt (default (JNum 0) (usd_lk !! k)) min_usd_total
    = Ok (Qltb 0 min_usd_total) ∧
  (∀ st,
     scan_entry usd_lk extra_lk min_apy min_usd_total st pool_name info =
     scan_entry ∅ ∅ min_apy min_usd_total st pool_name info) ∧
  (∀ h d,
     scan_entry usd_lk extra_lk min_apy min_usd_total ([], []) pool_name info
       = Ok (h, d) →
     Forall (λ e, usd_total e = JNum 0 ∧ extra_rewards_apy e = 0%Q) h ∧
     Forall (λ p, apy_extra_rewards_apy p = 0%Q) d) ∧
  ((0 < min_usd_total)%Q →
   ∀ st, scan_entry usd_lk extra_lk min_apy min_usd_total st pool_name info
         = Ok st) ∧
  (∀ e, e ∈ (filter_high_apy_pools fs file_path all_pools_file_path
               min_apy min_usd_total).2 →
        origin e = (pool_name, info) →
        usd_total e = JNum 0 ∧ extra_rewards_apy e = 0%Q ∧
        ¬ (0 < min_usd_total)%Q).
Proof.
  intros Hlk Hk Hnone.
  destruct (build_lookups_lookup _ _ _ k Hlk) as [Hu Hx].
  rewrite joined_pool_none in Hu, Hx by done. cbn in Hu, Hx.
  split_and!.
  - by rewrite Hu.
  - intros st. by eapply scan_entry_unmatched.
  - intros h d Hscan.
    destruct (scan_entry_joined _ _ _ _ _ _ _ _ _ Hk Hscan) as [Hh Hd].
    rewrite Hu, Hx in Hh. by rewrite Hx in Hd.
  - intros Hpos st. by eapply scan_entry_below.
  - intros e (usd_lk' & extra_lk' & n & info' & t & Hlk' & _ & Hq & _ & _ & ->)
      %result_entry_inv [= -> ->].
    rewrite Hlk in Hlk'. simplify_eq.
    cbn [scored usd_total extra_rewards_apy].
    apply qualifies_join in Hq as (k' & q & Hk' & Hj & Hq & Hle).
    rewrite Hk in Hk'. simplify_eq.
    unfold joined_extra. rewrite Hj, Hk, Hu, Hx. split_and!; try done.
    rewrite Hj, Hu in Hq. simplify_eq/=. by apply Qle_not_lt.
Qed.

Lemma C6_unmatched_address_defaults_and_exclusion_witness :
  (filter_high_apy_pools SampleUnmatched.fs "gauges.json" "pools.json" 7 0).2
    = [SampleUnmatched.lonepool_scored] ∧
  origin SampleUnmatched.lonepool_scored
    = ("lonepool", SampleUnmatched.unmatched) ∧
  scan_entry SampleUnmatched.usd_lk SampleUnmatched.extra_lk 7 0 ([], [])
    "lonepool" SampleUnmatched.unmatched
    = Ok ([SampleUnmatched.lonepool_scored],
          [SampleUnmatched.lonepool_reported]) ∧
  py_lt (default (JNum 0) (SampleUnmatched.usd_lk !! "0xbb")) 0
    = Ok (Qltb 0 0) ∧
  (∀ st,
     scan_entry SampleUnmatched.usd_lk SampleUnmatched.extra_lk 7 0 st
       "lonepool" SampleUnmatched.unmatched =
     scan_entry ∅ ∅ 7 0 st "lonepool" SampleUnmatched.unmatched) ∧
  (∀ h d,
     scan_entry SampleUnmatched.usd_lk SampleUnmatched.extra_lk 7 0 ([], [])
       "lonepool" SampleUnmatched.unmatched = Ok (h, d) →
     Forall (λ e, usd_total e = JNum 0 ∧ extra_rewards_apy e = 0%Q) h ∧
     Forall (λ p, apy_extra_rewards_apy p = 0%Q) d) ∧
  ((0 < 0)%Q →
   ∀ st, scan_entry SampleUnmatched.usd_lk SampleUnmatched.extra_lk 7 0 st
           "lonepool" SampleUnmatched.unmatched = Ok st) ∧
  (∀ e, e ∈ (filter_high_apy_pools SampleUnmatched.fs "gauges.json"
               "pools.json" 7 0).2 →
        origin e = ("lonepool", SampleUnmatched.unmatched) →
        usd_total e = JNum 0 ∧ extra_rewards_apy e = 0%Q ∧ ¬ (0 < 0)%Q).
Proof.
  split; [reflexivity|]. split; [reflexivity|]. split; [reflexivity|].
  apply (C6_unmatched_address_defaults_and_exclusion SampleUnmatched.fs
           "gauges.json" "pools.json" 7 0
           SampleUnmatched.usd_lk SampleUnmatched.extra_lk
           "lonepool" SampleUnmatched.unmatched "0xbb").
  - reflexivity.
  - reflexivity.
  - intros p Hp. vm_compute in Hp.
    apply list_elem_of_singleton in Hp as ->. vm_compute. discriminate.
Defined.




(** C8: when several records of [poolData] have the same lower-cased
    address, both look-ups hold, under that address, the values of the last
    of them: its [usdTotal] and the sum of its rewards. *)
Theorem C8_last_duplicate_address_wins l1 pool l2 k usd_lk extra_lk :
  build_lookups (l1 ++ pool :: l2) = Ok (usd_lk, extra_lk) →
  pool_key pool = Ok k →
  (∀ p, p ∈ l2 → pool_key p ≠ Ok k) →
  usd_lk !! k = Some (usd_of pool) ∧
  extra_rewards pool = Ok (apy_sum pool) ∧
  extra_lk !! k = Some (apy_sum pool).
Proof.
  intros Hlk Hk Hlast.
  destruct (lookups_of_last_record _ _ _ _ _ _ Hlk Hk Hlast) as [-> ->].
  split_and!; try done. by eapply build_lookups_member.
Qed.

Lemma C8_last_duplicate_address_wins_witness :
  SampleDuplicate.usd_lk !! "0xaa" = Some (usd_of SampleDuplicate.second) ∧
  extra_rewards SampleDuplicate.second = Ok (apy_sum SampleDuplicate.second) ∧
  SampleDuplicate.extra_lk !! "0xaa" = Some (apy_sum SampleDuplicate.second).
Proof.
  apply (C8_last_duplicate_address_wins
           [SampleDuplicate.first] SampleDuplicate.second [SampleDuplicate.elsewhere] "0xaa"
           SampleDuplicate.usd_lk SampleDuplicate.extra_lk).
  - reflexivity.
  - reflexivity.
  - intros p Hp. apply list_elem_of_singleton in Hp as ->.
    vm_compute. discriminate.
Defined.

(** C9: a gauge record with no [swap] field has the join key "" and a pool
    record with no [address] field is indexed under ""; the loop joins the
    gauge record to that pool record (the last such record): both look-ups
    hold its [usdTotal] and summed rewards under "", the liquidity check
    skips the gauge record when that [usdTotal] is below the threshold, and
    every entry the loop body appends for it carries that [usdTotal] and
    those rewards, not the defaults of a missing join. *)
Theorem C9_missing_swap_joins_missing_address o po l1 l2 usd_lk extra_lk :
  dict_get "swap" o = None →
  dict_get "address" po = None →
  build_lookups (l1 ++ JObj po :: l2) = Ok (usd_lk, extra_lk) →
  (∀ p, p ∈ l2 → pool_key p ≠ Ok "") →
  join_key (JObj o) = Ok "" ∧
  pool_key (JObj po) = Ok "" ∧
  usd_lk !! "" = Some (usd_of (JObj po)) ∧
  extra_lk !! "" = Some (apy_sum (JObj po)) ∧
  (∀ min_apy min_usd_total st pool_name q,
     as_num (usd_of (JObj po)) = Some q →
     (q < min_usd_total)%Q →
     scan_entry usd_lk extra_lk min_apy min_usd_total st pool_name (JObj o)
       = Ok st) ∧
  (∀ min_apy min_usd_total pool_name h d,
     scan_entry usd_lk extra_lk min_apy min_usd_total ([], [])
       pool_name (JObj o) = Ok (h, d) →
     Forall (λ e, usd_total e = usd_of (JObj po) ∧
                  extra_rewards_apy e = apy_sum (JObj po)) h ∧
     Forall (λ p, apy_extra_rewards_apy p = apy_sum (JObj po)) d).
Proof.
  intros Hswap Haddr Hlk Hlast.
  assert (join_key (JObj o) = Ok "") as Hj.
  { unfold join_key. cbn [py_get mbind res_bind]. by rewrite Hswap. }
  assert (pool_key (JObj po) = Ok "") as Hp.
  { unfold pool_key. cbn [py_get mbind res_bind]. by rewrite Haddr. }
  destruct (lookups_of_last_record l1 (JObj po) l2 ""
              usd_lk extra_lk Hlk Hp Hlast) as [Hu Hx].
  split_and!; try done.
  - intros min_apy min_usd_total st pool_name q Hq Hlt.
    eapply scan_entry_low; [done| |done]. by rewrite Hu.
  - intros min_apy min_usd_total pool_name h d Hscan.
    destruct (scan_entry_joined _ _ _ _ _ _ _ _ _ Hj Hscan) as [Hh Hd].
    rewrite Hu, Hx in Hh. by rewrite Hx in Hd.
Qed.

Lemma C9_missing_swap_joins_missing_address_witness :
  scan_entry SampleNoSwap.usd_lk SampleNoSwap.extra_lk 7 5000000 ([], [])
    "plainpool" (JObj SampleNoSwap.no_swap)
    = Ok ([SampleNoSwap.plainpool_scored], [SampleNoSwap.plainpool_reported]) ∧
  usd_of (JObj SampleNoSwap.no_address) = JNum 7000000 ∧
  apy_sum (JObj SampleNoSwap.no_address) = (0 + 4)%Q ∧
  join_key (JObj SampleNoSwap.no_swap) = Ok "" ∧
  pool_key (JObj SampleNoSwap.no_address) = Ok "" ∧
  SampleNoSwap.usd_lk !! "" = Some (usd_of (JObj SampleNoSwap.no_address)) ∧
  SampleNoSwap.extra_lk !! ""
    = Some (apy_sum (JObj SampleNoSwap.no_address)) ∧
  (∀ min_apy min_usd_total st pool_name q,
     as_num (usd_of (JObj SampleNoSwap.no_address)) = Some q →
     (q < min_usd_total)%Q →
     scan_entry SampleNoSwap.usd_lk SampleNoSwap.extra_lk
       min_apy min_usd_total st pool_name (JObj SampleNoSwap.no_swap)
       = Ok st) ∧
  (∀ min_apy min_usd_total pool_name h d,
     scan_entry SampleNoSwap.usd_lk SampleNoSwap.extra_lk
       min_apy min_usd_total ([], []) pool_name (JObj SampleNoSwap.no_swap)
       = Ok (h, d) →
     Forall (λ e, usd_total e = usd_of (JObj SampleNoSwap.no_address) ∧
                  extra_rewards_apy e
                    = apy_sum (JObj SampleNoSwap.no_address)) h ∧
     Forall (λ p, apy_extra_rewards_apy p
                    = apy_sum (JObj SampleNoSwap.no_address)) d).
Proof.
  split; [reflexivity|]. split; [reflexivity|]. split; [reflexivity|].
  apply (C9_missing_swap_joins_missing_address
           SampleNoSwap.no_swap SampleNoSwap.no_address
           [Sample.pool "0xaa" 6000000 [Sample.reward 3]] []
           SampleNoSwap.usd_lk SampleNoSwap.extra_lk).
  - reflexivity.
  - reflexivity.
  - reflexivity.
  - intros p Hp. by apply elem_of_nil in Hp.
Defined.

(** C10: a reward stream without an [apy] key adds 0 to the running sum and
    raises nothing; the extra rewards of a pool record are those of the
    record without that stream, and when they are computed they are the sum
    of the [apy] values present. *)
Theorem C10_reward_without_apy_contributes_zero po po' l1 o l2 :
  dict_get "apy" o = None →
  dict_get "gaugeRewards" po = Some (JArr (l1 ++ JObj o :: l2)) →
  dict_get "gaugeRewards" po' = Some (JArr (l1 ++ l2)) →
  (∀ acc, sum_rewards acc [JObj o] = Ok acc) ∧
  extra_rewards (JObj po) = extra_rewards (JObj po') ∧
  (∀ q, extra_rewards (JObj po) = Ok q →
        q = fold_left Qplus (present_apys (l1 ++ l2)) 0%Q).
Proof.
  intros Hapy Hpo Hpo'.
  assert (extra_rewards (JObj po) = sum_rewards 0 (l1 ++ l2)) as Hsum.
  { rewrite (extra_rewards_list _ _ Hpo).
    rewrite <- (sum_rewards_skip_no_apy o l1 l2 0) by done.
    by destruct l1. }
  split_and!.
  - intros acc. by rewrite sum_rewards_no_apy.
  - rewrite Hsum, (extra_rewards_list _ _ Hpo'). by destruct (l1 ++ l2).
  - intros q Hq. rewrite Hsum in Hq. by apply sum_rewards_spec.
Qed.

Lemma C10_reward_without_apy_contributes_zero_witness :
  (∀ acc, sum_rewards acc [JObj SampleNoApy.no_apy] = Ok acc) ∧
  extra_rewards (JObj SampleNoApy.with_it)
    = extra_rewards (JObj SampleNoApy.without_it) ∧
  (∀ q, extra_rewards (JObj SampleNoApy.with_it) = Ok q →
        q = fold_left Qplus
              (present_apys ([Sample.reward 3] ++ [Sample.reward 2])) 0%Q).
Proof.
  apply (C10_reward_without_apy_contributes_zero
           SampleNoApy.with_it SampleNoApy.without_it
           [Sample.reward 3] SampleNoApy.no_apy [Sample.reward 2]);
    reflexivity.
Defined.

(** ** Further properties of the code *)

Lemma filter_high_apy_pools_prepare fs file_path all_pools_file_path
    min_apy min_usd_total :
  filter_high_apy_pools fs file_path all_pools_file_path
    min_apy min_usd_total =
  match prepare fs file_path all_pools_file_path with
  | EarlyReturn msg => ([msg], [])
  | Raised e => ([except e], [])
  | Ready usd_lk extra_lk items =>
      finish usd_lk extra_lk items min_apy min_usd_total
  end.
Proof.
  unfold filter_high_apy_pools, try_body, prepare, finish.
  destruct (load fs file_path) as [data|]; [|done].
  destruct (invalid_structure data) as [[]|]; try done.
  destruct (load fs all_pools_file_path) as [all_pools_data|]; [|done].
  destruct (invalid_structure all_pools_data) as [[]|]; try done.
  destruct (py_getitem all_pools_data "data") as [all_data|];
    cbn [mbind res_bind]; [|done].
  destruct (py_getitem all_data "poolData") as [pool_data|];
    cbn [mbind res_bind]; [|done].
  destruct (py_iter pool_data) as [pools|]; cbn [mbind res_bind]; [|done].
  destruct (build_lookups pools) as [lk|]; cbn [mbind res_bind]; [|done].
  destruct (py_getitem data "data") as [pools_data|];
    cbn [mbind res_bind]; [|done].
  destruct (py_items pools_data) as [items|]; cbn [mbind res_bind]; [|done].
  destruct (scan _ _ _ _ _ items) as [[h d]|]; [|done].
  by destruct (print_summary d) as [out [e|]].
Qed.

Lemma prepare_ready fs file_path all_pools_file_path usd_lk extra_lk items :
  prepare fs file_path all_pools_file_path = Ready usd_lk extra_lk items →
  items = gauge_items fs file_path ∧
  build_lookups (pool_records fs all_pools_file_path) = Ok (usd_lk, extra_lk).
Proof.
  unfold prepare, load, gauge_items, pool_records.
  destruct (fs file_path) as [| |data|unreadable]; try done.
  destruct (invalid_structure data) as [[]|]; try done.
  destruct (fs all_pools_file_path) as [| |all_pools_data|unreadable]; try done.
  destruct (invalid_structure all_pools_data) as [[]|]; try done.
  destruct (py_getitem all_pools_data "data") as [all_data|];
    cbn [mbind res_bind]; [|done].
  destruct (py_getitem all_data "poolData") as [pool_data|];
    cbn [mbind res_bind]; [|done].
  destruct (py_iter pool_data) as [pools|]; cbn [mbind res_bind]; [|done].
  destruct (build_lookups pools) as [[u x]|]; cbn [mbind res_bind]; [|done].
  destruct (py_getitem data "data") as [pools_data|];
    cbn [mbind res_bind]; [|done].
  destruct (py_items pools_data) as [its|]; cbn [mbind res_bind]; [|done].
  by intros [= <- <- <-].
Qed.

Lemma result_shape fs file_path all_pools_file_path min_apy min_usd_total :
  (filter_high_apy_pools fs file_path all_pools_file_path
     min_apy min_usd_total).2 = [] ∨
  ∃ usd_lk extra_lk,
    build_lookups (pool_records fs all_pools_file_path)
      = Ok (usd_lk, extra_lk) ∧
    (filter_high_apy_pools fs file_path all_pools_file_path
       min_apy min_usd_total).2 =
    sort_desc (gauge_items fs file_path
                 ≫= spec_result usd_lk extra_lk min_apy min_usd_total).
Proof.
  destruct (filter_high_apy_pools_inv fs file_path all_pools_file_path
              min_apy min_usd_total)
    as [?|(usd_lk & extra_lk & h & d & Hlk & Hscan & ->)]; [by left|].
  right. exists usd_lk, extra_lk. split; [done|].
  by apply scan_spec in Hscan as [-> _].
Qed.

Lemma qualifies_items usd_lk min_usd_total pool_name info :
  qualifies usd_lk min_usd_total pool_name info = true →
  is_pool info = true ∧ is_Some (crv_pair info) ∧
  has_no_crv info = false ∧ is_stable info = true ∧
  name_allowed pool_name = true.
Proof.
  unfold qualifies, qualifies_1_4.
  intros [[[[[H1 H2]%andb_prop H3]%andb_prop H4]%andb_prop H5]%andb_prop _]
    %andb_prop.
  apply bool_decide_eq_true in H2. apply negb_true_iff in H3. done.
Qed.

(** X1: every entry of the returned list was made from a gauge entry of
    Document A, carries that entry's name and record, and that entry passes
    every test of the loop: [isPool] truthy, a two-element [gaugeCrvApy],
    [hasNoCrv] falsy, [type] "stable", a name without "btc" and "eth", a
    numeric joined [usdTotal] that is not less than [min_usd_total], and
    one of the two totals strictly above [min_apy]. *)
Theorem X1_result_entries_pass_every_test fs file_path all_pools_file_path
    min_apy min_usd_total e :
  e ∈ (filter_high_apy_pools fs file_path all_pools_file_path
         min_apy min_usd_total).2 →
  origin e ∈ gauge_items fs file_path ∧
  is_pool (pool_info e) = true ∧
  is_Some (crv_pair (pool_info e)) ∧
  has_no_crv (pool_info e) = false ∧
  is_stable (pool_info e) = true ∧
  contains "btc" (lower (name e)) = false ∧
  contains "eth" (lower (name e)) = false ∧
  (∃ q, as_num (usd_total e) = Some q ∧ ¬ (q < min_usd_total)%Q) ∧
  ((min_apy < fst (total_apy_range e))%Q ∨
   (min_apy < snd (total_apy_range e))%Q).
Proof.
  intros (usd_lk & extra_lk & n & info & t & _ & Hin & Hq & _ & Ha & ->)
    %result_entry_inv.
  destruct (qualifies_items _ _ _ _ Hq) as (H1 & H2 & H3 & H4 & H5).
  apply qualifies_join in Hq as (k & q & _ & _ & Hq & Hle).
  unfold name_allowed in H5.
  apply andb_prop in H5 as [Hb%negb_true_iff He%negb_true_iff].
  cbn [scored origin name pool_info usd_total total_apy_range].
  split_and!; try done; [exists q; split; [done|by apply Qle_not_lt]|].
  unfold above in Ha. apply orb_prop in Ha as [Ha|Ha];
    apply Qltb_lt in Ha; auto.
Qed.

Lemma X1_result_entries_pass_every_test_witness :
  origin Sample.stable3pool_scored ∈ gauge_items Sample.fs "gauges.json" ∧
  is_pool (pool_info Sample.stable3pool_scored) = true ∧
  is_Some (crv_pair (pool_info Sample.stable3pool_scored)) ∧
  has_no_crv (pool_info Sample.stable3pool_scored) = false ∧
  is_stable (pool_info Sample.stable3pool_scored) = true ∧
  contains "btc" (lower (name Sample.stable3pool_scored)) = false ∧
  contains "eth" (lower (name Sample.stable3pool_scored)) = false ∧
  (∃ q, as_num (usd_total Sample.stable3pool_scored) = Some q ∧
        ¬ (q < 5000000)%Q) ∧
  ((7 < fst (total_apy_range Sample.stable3pool_scored))%Q ∨
   (7 < snd (total_apy_range Sample.stable3pool_scored))%Q).
Proof.
  apply (X1_result_entries_pass_every_test Sample.fs "gauges.json"
           "pools.json" 7 5000000 Sample.stable3pool_scored).
  vm_compute. constructor.
Defined.

(** X2: the function returns no more entries than Document A has gauge
    entries, and when the names of the gauge entries are distinct, as the
    keys of a dictionary are, no name occurs twice in the result. *)
Theorem X2_result_has_no_duplicate fs file_path all_pools_file_path
    min_apy min_usd_total :
  (length (filter_high_apy_pools fs file_path all_pools_file_path
             min_apy min_usd_total).2
     ≤ length (gauge_items fs file_path))%nat ∧
  (NoDup (fst <$> gauge_items fs file_path) →
   NoDup (name <$> (filter_high_apy_pools fs file_path all_pools_file_path
                      min_apy min_usd_total).2)).
Proof.
  destruct (result_shape fs file_path all_pools_file_path
              min_apy min_usd_total) as [->|(usd_lk & extra_lk & _ & ->)].
  { split; [simpl; lia|]. intros _. constructor. }
  pose proof (spec_result_origin usd_lk extra_lk min_apy min_usd_total
                (gauge_items fs file_path)) as Hsub.
  split.
  - rewrite sort_desc_perm. apply sublist_length in Hsub.
    by rewrite length_fmap in Hsub.
  - intros Hnd. rewrite sort_desc_perm.
    assert (name <$> (gauge_items fs file_path
                        ≫= spec_result usd_lk extra_lk min_apy min_usd_total)
            = fst <$> (origin <$> (gauge_items fs file_path
                        ≫= spec_result usd_lk extra_lk min_apy min_usd_total)))
      as ->.
    { by rewrite <- list_fmap_compose. }
    eapply sublist_NoDup; [exact Hnd|]. by apply fmap_sublist.
Qed.

Lemma X2_result_has_no_duplicate_witness :
  NoDup (fst <$> gauge_items Sample.fs "gauges.json") ∧
  NoDup (name <$> (filter_high_apy_pools Sample.fs "gauges.json"
                     "pools.json" 7 5000000).2).
Proof.
  assert (NoDup (fst <$> gauge_items Sample.fs "gauges.json")) as H.
  { vm_compute. repeat constructor. by intros ?%elem_of_nil. }
  split; [exact H|].
  exact (proj2 (X2_result_has_no_duplicate Sample.fs "gauges.json"
                  "pools.json" 7 5000000) H).
Defined.

(** X3: the gauges file is read and checked first. When it is absent, not
    JSON, unreadable, or without a truthy [success] flag and a [data] key,
    the pools file and the thresholds have no influence on what the function
    prints and returns. *)
Theorem X3_gauges_checked_before_pools fs fs' file_path
    all_pools_file_path all_pools_file_path'
    min_apy min_usd_total min_apy' min_usd_total' :
  fs' file_path = fs file_path →
  unusable (fs file_path) = true →
  filter_high_apy_pools fs' file_path all_pools_file_path'
    min_apy' min_usd_total' =
  filter_high_apy_pools fs file_path all_pools_file_path
    min_apy min_usd_total.
Proof.
  intros Heq Hbad. rewrite !filter_high_apy_pools_prepare.
  unfold prepare, load. rewrite Heq.
  destruct (fs file_path) as [| |data|unreadable]; try done.
  pose proof (invalid_structure_spec data) as Hs.
  destruct (invalid_structure data) as [[]|]; try done.
  cbn [unusable] in Hbad. congruence.
Qed.

Lemma X3_gauges_checked_before_pools_witness :
  filter_high_apy_pools
    (Sample.files JNull (Sample.pools [])) "gauges.json" "pools.json" 1 2 =
  filter_high_apy_pools
    (Sample.files JNull (Sample.pools [Sample.pool "0xaa" 1 []]))
    "gauges.json" "absent.json" 7 5000000.
Proof.
  apply (X3_gauges_checked_before_pools
           (Sample.files JNull (Sample.pools [Sample.pool "0xaa" 1 []]))
           (Sample.files JNull (Sample.pools []))
           "gauges.json" "absent.json" "pools.json" 7 5000000 1 2);
    reflexivity.
Defined.

Lemma invalid_structure_dict top :
  invalid_structure (JObj top)
  = Ok (negb (has_success_and_data (JObj top))).
Proof.
  unfold invalid_structure, has_success_and_data.
  cbn [py_get mbind res_bind].
  by destruct (truthy _).
Qed.

Lemma first_source_error_filter fs file_path all_pools_file_path
    min_apy min_usd_total msg :
  first_source_error fs file_path all_pools_file_path = Some msg →
  filter_high_apy_pools fs file_path all_pools_file_path
    min_apy min_usd_total = ([msg], []).
Proof.
  unfold first_source_error, source_error.
  rewrite filter_high_apy_pools_prepare. unfold prepare, load. intros H.
  destruct (fs file_path) as [| |data|unreadable];
    [by simplify_eq|by simplify_eq| |by simplify_eq].
  destruct data as [ | | | | |top]; try by simplify_eq.
  rewrite invalid_structure_dict.
  destruct (has_success_and_data (JObj top)); [|by simplify_eq].
  cbn [negb].
  destruct (fs all_pools_file_path) as [| |all_pools_data|unreadable];
    [by simplify_eq|by simplify_eq| |by simplify_eq].
  destruct all_pools_data as [ | | | | |btop]; try by simplify_eq.
  rewrite invalid_structure_dict.
  destruct (has_success_and_data (JObj btop)); [done|by simplify_eq].
Qed.

(** X4: a source file that cannot be used is reported by the message of
    its cause, and nothing else is printed: "file not found" for an absent
    file, "invalid JSON" for a file that does not parse, the structure
    message of the file for a dictionary without a truthy [success] and a
    [data] key, the generic error of the missing [get] method for a
    document that is not a dictionary, and for a file whose reading raises
    another exception (bytes that are not text, a directory, a file
    without read permission, a document nested too deep) the message of
    the clause that catches that exception. An error of the pools file is
    reported only when the gauges file has none. *)
Theorem X4_source_error_message fs file_path all_pools_file_path
    min_apy min_usd_total msg :
  first_source_error fs file_path all_pools_file_path = Some msg →
  filter_high_apy_pools fs file_path all_pools_file_path
    min_apy min_usd_total = ([msg], []).
Proof. apply first_source_error_filter. Qed.

Lemma X4_source_error_message_witness :
  filter_high_apy_pools SampleUnreadable.fs "gauges.json" "pools.json"
    7 5000000
  = ([ErrorOther UnicodeDecodeError], []).
Proof.
  apply (X4_source_error_message SampleUnreadable.fs "gauges.json"
           "pools.json" 7 5000000 (ErrorOther UnicodeDecodeError)).
  reflexivity.
Defined.

Lemma scan_entry_same_report usd_lk extra_lk min_apy min_apy' min_usd_total
    pool_name info :
  same_report
    (scan_entry usd_lk extra_lk min_apy min_usd_total ([], []) pool_name info)
    (scan_entry usd_lk extra_lk min_apy' min_usd_total ([], []) pool_name info).
Proof.
  unfold same_report, scan_entry, mbind, res_bind.
  repeat case_match; simplify_eq; done.
Qed.

Lemma scan_same_report usd_lk extra_lk min_apy min_apy' min_usd_total items :
  same_report
    (scan usd_lk extra_lk min_apy min_usd_total ([], []) items)
    (scan usd_lk extra_lk min_apy' min_usd_total ([], []) items).
Proof.
  induction items as [|[n info] items IH]; [done|].
  cbn [scan].
  pose proof (scan_entry_same_report usd_lk extra_lk min_apy min_apy'
                min_usd_total n info) as H1.
  destruct (scan_entry _ _ min_apy _ _ n info) as [[h1 d1]|e1],
           (scan_entry _ _ min_apy' _ _ n info) as [[h1' d1']|e1'];
    try done.
  cbn [mbind res_bind same_report] in *. subst d1'.
  rewrite (scan_frame _ _ _ _ _ (h1, d1)), (scan_frame _ _ _ _ _ (h1', d1)).
  destruct (scan _ _ min_apy _ _ items) as [[h2 d2]|e2],
           (scan _ _ min_apy' _ _ items) as [[h2' d2']|e2'];
    try done.
  cbn [same_report fst snd] in *. by subst.
Qed.

Lemma above_mono a a' t :
  (a <= a')%Q → above a' t = true → above a t = true.
Proof.
  unfold above. intros Hle [H|H]%orb_prop; apply Qltb_lt in H;
    apply orb_true_iff; [left|right]; apply Qltb_lt;
    by eapply Qle_lt_trans.
Qed.

Lemma spec_result_raise usd_lk extra_lk min_apy min_apy' min_usd_total items :
  (min_apy <= min_apy')%Q →
  items ≫= spec_result usd_lk extra_lk min_apy' min_usd_total =
  filter (λ e, above min_apy' (total_apy_range e) = true)
    (items ≫= spec_result usd_lk extra_lk min_apy min_usd_total).
Proof.
  intros Hle. induction items as [|[n info] items IH]; [done|].
  rewrite !bind_cons, filter_app, IH. f_equal.
  unfold spec_result. cbn [fst snd].
  destruct (qualifies _ _ _ _); [|done].
  destruct (total_apy _ _) as [t|]; [|done].
  destruct (above min_apy' t) eqn:Ha'.
  - rewrite (above_mono _ _ _ Hle Ha'), filter_cons.
    cbn [scored total_apy_range]. by rewrite decide_True.
  - destruct (above min_apy t); [|done].
    rewrite filter_cons. cbn [scored total_apy_range].
    rewrite decide_False; [done|]. by rewrite Ha'.
Qed.

(** X5: the threshold [min_apy] only selects. The summary printed does not
    depend on it, and the list returned for a higher threshold holds, up to
    the order, the entries of the list returned for a lower one that have a
    total above the higher threshold, each as often. *)
Theorem X5_min_apy_only_selects fs file_path all_pools_file_path
    min_apy min_apy' min_usd_total :
  (min_apy <= min_apy')%Q →
  (filter_high_apy_pools fs file_path all_pools_file_path
     min_apy' min_usd_total).1 =
  (filter_high_apy_pools fs file_path all_pools_file_path
     min_apy min_usd_total).1 ∧
  (filter_high_apy_pools fs file_path all_pools_file_path
     min_apy' min_usd_total).2 ≡ₚ
  filter (λ e, above min_apy' (total_apy_range e) = true)
    (filter_high_apy_pools fs file_path all_pools_file_path
       min_apy min_usd_total).2.
Proof.
  intros Hle. rewrite !filter_high_apy_pools_prepare.
  destruct (prepare fs file_path all_pools_file_path)
    as [msg|e|usd_lk extra_lk items]; [done..|].
  unfold finish.
  pose proof (scan_same_report usd_lk extra_lk min_apy min_apy'
                min_usd_total items) as Hsame.
  destruct (scan _ _ min_apy _ _ items) as [[h d]|e] eqn:Hscan,
           (scan _ _ min_apy' _ _ items) as [[h' d']|e'] eqn:Hscan';
    cbn [same_report] in Hsame; try done.
  2:{ by subst. }
  subst d'.
  apply scan_spec in Hscan as [-> _]. apply scan_spec in Hscan' as [-> _].
  destruct (print_summary d) as [out [e|]]; [done|].
  cbn [fst snd]. split; [done|].
  by rewrite (spec_result_raise _ _ _ _ _ _ Hle), !sort_desc_perm.
Qed.

Lemma X5_min_apy_only_selects_witness :
  (filter_high_apy_pools SampleIncomplete.fs_with "gauges.json" "pools.json"
     10 5000000).1 =
  (filter_high_apy_pools SampleIncomplete.fs_with "gauges.json" "pools.json"
     7 5000000).1 ∧
  (filter_high_apy_pools SampleIncomplete.fs_with "gauges.json" "pools.json"
     10 5000000).2 ≡ₚ
  filter (λ e, above 10 (total_apy_range e) = true)
    (filter_high_apy_pools SampleIncomplete.fs_with "gauges.json" "pools.json"
       7 5000000).2.
Proof.
  apply (X5_min_apy_only_selects SampleIncomplete.fs_with "gauges.json"
           "pools.json" 7 10 5000000).
  vm_compute. discriminate.
Defined.

Lemma print_lines_inv ps : ∀ out,
  print_lines ps = (out, None) → Forall2 line_of ps out.
Proof.
  induction ps as [|p ps IH]; intros out H.
  - by simplify_eq/=.
  - cbn [print_lines] in H.
    destruct (format_line p) as [msg|] eqn:Hp; [|done].
    destruct (print_lines ps) as [out' [e|]]; [done|].
    simplify_eq. constructor; [|by apply IH]. clear IH.
    unfold format_line in Hp.
    destruct (format_2f (py_index _ 0)) as [c0|]; [|done].
    cbn [mbind res_bind] in Hp.
    destruct (format_2f (py_index _ 1)) as [c1|]; [|done].
    cbn [mbind res_bind] in Hp. simplify_eq. by exists c0, c1.
Qed.

(** X6: a summary that is printed in full starts with the number of all
    diagnostic entries, continues with one line for each of the first ten
    of them, in their order and under their names, and ends with the number
    of the remaining entries exactly when there are more than ten. *)
Theorem X6_summary_lists_first_ten d out :
  d ≠ [] →
  print_summary d = (out, None) →
  ∃ lines,
    out = FoundNonZero (length d) :: lines ++
            (if (10 <? length d)%nat then [AndMore (length d - 10)] else []) ∧
    length lines = (length d `min` 10)%nat ∧
    Forall2 line_of (take 10 d) lines.
Proof.
  intros Hd H. unfold print_summary in H.
  destruct d as [|p d]; [done|].
  destruct (print_lines (take 10 (p :: d))) as [lines [e|]] eqn:Hl; [done|].
  simplify_eq. exists lines. split; [done|].
  apply print_lines_inv in Hl. split; [|done].
  apply Forall2_length in Hl. rewrite <- Hl, length_take. lia.
Qed.

Lemma X6_summary_lists_first_ten_witness :
  ∃ lines,
    [FoundNonZero 1; PoolLine "stable3pool" 5 6 (0 + 3)] =
      FoundNonZero
        (length [reported SampleNull.extra_lk "stable3pool"
                   (Sample.record Sample.pair_5_6)])
        :: lines ++
          (if (10 <? length [reported SampleNull.extra_lk "stable3pool"
                               (Sample.record Sample.pair_5_6)])%nat
           then [AndMore
                   (length [reported SampleNull.extra_lk "stable3pool"
                              (Sample.record Sample.pair_5_6)] - 10)]
           else []) ∧
    length lines =
      (length [reported SampleNull.extra_lk "stable3pool"
                 (Sample.record Sample.pair_5_6)] `min` 10)%nat ∧
    Forall2 line_of
      (take 10 [reported SampleNull.extra_lk "stable3pool"
                  (Sample.record Sample.pair_5_6)]) lines.
Proof.
  apply (X6_summary_lists_first_ten
           [reported SampleNull.extra_lk "stable3pool"
              (Sample.record Sample.pair_5_6)]
           [FoundNonZero 1; PoolLine "stable3pool" 5 6 (0 + 3)]).
  - discriminate.
  - reflexivity.
Defined.








Lemma spec_result_le_report usd_lk extra_lk min_apy min_usd_total items :
  (0 <= min_apy)%Q →
  (length (items ≫= spec_result usd_lk extra_lk min_apy min_usd_total)
   ≤ length (items ≫= spec_report usd_lk extra_lk min_usd_total))%nat.
Proof.
  intros Hle. induction items as [|item items IH]; [done|].
  rewrite !bind_cons, !length_app.
  apply Nat.add_le_mono; [|done].
  unfold spec_result, spec_report.
  destruct (qualifies _ _ _ _); [|done].
  destruct (total_apy _ _) as [t|]; [|done].
  destruct (above min_apy t) eqn:Ha; [|simpl; lia].
  by rewrite (above_mono _ _ _ Hle Ha).
Qed.

(** X8: with a threshold [min_apy] that is not negative, every entry of
    the result is also counted in the summary: when the function returns a
    non-empty list, the first line it printed is the count of the pools
    with a non-zero APY, and that count is at least the length of the
    list. *)
Theorem X8_summary_counts_every_result fs file_path all_pools_file_path
    min_apy min_usd_total :
  (0 <= min_apy)%Q →
  (filter_high_apy_pools fs file_path all_pools_file_path
     min_apy min_usd_total).2 ≠ [] →
  ∃ n rest,
    (filter_high_apy_pools fs file_path all_pools_file_path
       min_apy min_usd_total).1 = FoundNonZero n :: rest ∧
    (length (filter_high_apy_pools fs file_path all_pools_file_path
               min_apy min_usd_total).2 ≤ n)%nat.
Proof.
  intros Hle. rewrite filter_high_apy_pools_prepare.
  destruct (prepare fs file_path all_pools_file_path)
    as [msg|e|usd_lk extra_lk items]; [done..|].
  unfold finish.
  destruct (scan _ _ _ _ _ items) as [[h d]|e] eqn:Hscan; [|done].
  apply scan_spec in Hscan as [-> ->].
  pose proof (spec_result_le_report usd_lk extra_lk min_apy min_usd_total
                items Hle) as Hlen.
  unfold print_summary.
  destruct (items ≫= spec_report usd_lk extra_lk min_usd_total)
    as [|p d] eqn:Hd.
  { cbn [fst snd]. intros Hne. exfalso. apply Hne.
    destruct (items ≫= spec_result _ _ _ _) as [|? ?]; [done|].
    simpl in Hlen. lia. }
  destruct (print_lines (take 10 (p :: d))) as [out [e|]]; [done|].
  cbn [fst snd]. intros _. eexists _, _. split; [done|].
  by rewrite sort_desc_perm.
Qed.

Lemma X8_summary_counts_every_result_witness :
  ∃ n rest,
    (filter_high_apy_pools Sample.fs "gauges.json" "pools.json"
       7 5000000).1 = FoundNonZero n :: rest ∧
    (length (filter_high_apy_pools Sample.fs "gauges.json" "pools.json"
               7 5000000).2 ≤ n)%nat.
Proof.
  apply (X8_summary_counts_every_result Sample.fs "gauges.json"
           "pools.json" 7 5000000).
  - vm_compute. discriminate.
  - vm_compute. discriminate.
Defined.

Lemma joined_pool_elem_of k pools pool :
  joined_pool k pools = Some pool → pool ∈ pools ∧ pool_key pool = Ok k.
Proof.
  unfold joined_pool. intros H%last_Some_elem_of.
  by apply list_elem_of_filter in H as [? ?].
Qed.

Lemma joined_pool_is_Some k pools :
  is_Some (joined_pool k pools) ↔
  ∃ pool, pool ∈ pools ∧ pool_key pool = Ok k.
Proof.
  split.
  - intros [pool H]. exists pool. by apply joined_pool_elem_of.
  - intros (pool & Hin & Hk). unfold joined_pool.
    destruct (last _) as [p|] eqn:Hlast; [by eexists|].
    apply last_None in Hlast.
    assert (pool ∈ filter (λ pool, pool_key pool = Ok k) pools) as Hf.
    { by apply list_elem_of_filter. }
    rewrite Hlast in Hf. by apply elem_of_nil in Hf.
Qed.

(** X9: the two look-ups always have the same keys, and a key is present
    exactly when it is the lower-cased address of some record of
    [poolData]. *)
Theorem X9_lookups_share_their_keys pools usd_lk extra_lk k :
  build_lookups pools = Ok (usd_lk, extra_lk) →
  (is_Some (usd_lk !! k) ↔
   ∃ pool, pool ∈ pools ∧ pool_key pool = Ok k) ∧
  (is_Some (extra_lk !! k) ↔ is_Some (usd_lk !! k)).
Proof.
  intros Hlk. destruct (build_lookups_lookup _ _ _ k Hlk) as [-> ->].
  rewrite !fmap_is_Some. split; [apply joined_pool_is_Some|done].
Qed.

Lemma X9_lookups_share_their_keys_witness :
  (is_Some (SampleDuplicate.usd_lk !! "0xaa") ↔
   ∃ pool,
     pool ∈ [SampleDuplicate.first; SampleDuplicate.second;
             SampleDuplicate.elsewhere] ∧
     pool_key pool = Ok "0xaa") ∧
  (is_Some (SampleDuplicate.extra_lk !! "0xaa") ↔
   is_Some (SampleDuplicate.usd_lk !! "0xaa")).
Proof.
  apply (X9_lookups_share_their_keys
           [SampleDuplicate.first; SampleDuplicate.second;
            SampleDuplicate.elsewhere]
           SampleDuplicate.usd_lk SampleDuplicate.extra_lk "0xaa").
  reflexivity.
Defined.

Lemma lower_ascii_not_capital c : is_capital (lower_ascii c) = false.
Proof. by destruct c as [[] [] [] [] [] [] [] []]. Qed.

Lemma lower_no_capital s : has_capital (lower s) = false.
Proof.
  induction s as [|c s IH]; [done|].
  cbn [lower has_capital]. by rewrite lower_ascii_not_capital, IH.
Qed.

Lemma pool_key_no_capital pool k :
  pool_key pool = Ok k → has_capital k = false.
Proof.
  unfold pool_key. destruct pool as [ | | | | |o]; try done.
  cbn [py_get mbind res_bind].
  destruct (default (JStr "") (dict_get "address" o)) as [ | | |s| | ];
    try done.
  intros [= <-]. apply lower_no_capital.
Qed.

(** X10: every key of the two look-ups is the lower-cased address of a pool
    record and holds none of the capital letters A to Z, whatever the case
    of the letters of the address is. A gauge entry is therefore only ever
    joined through the lower-cased form of its swap address. *)
Theorem X10_lookup_keys_are_lower_case pools usd_lk extra_lk k :
  build_lookups pools = Ok (usd_lk, extra_lk) →
  is_Some (usd_lk !! k) ∨ is_Some (extra_lk !! k) →
  has_capital k = false ∧
  ∃ pool address,
    pool ∈ pools ∧
    py_get pool "address" (JStr "") = Ok (JStr address) ∧
    k = lower address.
Proof.
  intros Hlk H.
  destruct (build_lookups_lookup _ _ _ k Hlk) as [Hu Hx].
  rewrite Hu, Hx, !fmap_is_Some in H.
  assert (is_Some (joined_pool k pools)) as [pool Hp] by by destruct H.
  apply joined_pool_elem_of in Hp as [Hin Hp].
  split; [by eapply pool_key_no_capital|].
  unfold pool_key in Hp. destruct pool as [ | | | | |o]; try done.
  cbn [py_get mbind res_bind] in Hp.
  destruct (default (JStr "") (dict_get "address" o))
    as [ | | |s| | ] eqn:Haddr; try done.
  exists (JObj o), s. cbn [py_get]. rewrite Haddr. by simplify_eq/=.
Qed.

Lemma X10_lookup_keys_are_lower_case_witness :
  has_capital "0xAA" = true ∧
  build_lookups [SampleDuplicate.first]
    = Ok ({[ "0xaa" := JNum 1000 ]}, {[ "0xaa" := (0 + 1)%Q ]}) ∧
  has_capital "0xaa" = false ∧
  ∃ pool address,
    pool ∈ [SampleDuplicate.first] ∧
    py_get pool "address" (JStr "") = Ok (JStr address) ∧
    "0xaa" = lower address.
Proof.
  split; [reflexivity|]. split; [reflexivity|].
  apply (X10_lookup_keys_are_lower_case
           [SampleDuplicate.first]
           {[ "0xaa" := JNum 1000 ]} {[ "0xaa" := (0 + 1)%Q ]} "0xaa").
  - reflexivity.
  - left. by eexists.
Defined.

Lemma index_pool_indexable lk pool :
  (∃ lk', index_pool lk pool = Ok lk') ↔ indexable pool.
Proof.
  split.
  - intros [lk' (k & q & Hk & Hq & _)%index_pool_inv]. by exists k, q.
  - intros (k & q & Hk & Hq). unfold index_pool. rewrite Hk.
    destruct pool as [ | | | | |o]; try done.
    cbn [py_get mbind res_bind]. rewrite Hq. by eexists.
Qed.

Lemma index_pools_indexable pools : ∀ lk,
  (∃ lk', index_pools lk pools = Ok lk') ↔ Forall indexable pools.
Proof.
  induction pools as [|pool pools IH]; intros lk.
  - split; [by constructor|by eexists].
  - cbn [index_pools]. split.
    + intros [lk' H].
      destruct (index_pool lk pool) as [lk1|] eqn:H1; [|done].
      constructor.
      * apply (index_pool_indexable lk). by eexists.
      * apply (IH lk1). by eexists.
    + intros [Hp Hps]%Forall_cons.
      apply (index_pool_indexable lk) in Hp as [lk1 ->].
      cbn [mbind res_bind]. by apply IH.
Qed.

Lemma filter_key_at_most_one k pools :
  NoDup (pool_key <$> pools) →
  (length (filter (λ pool, pool_key pool = Ok k) pools) ≤ 1)%nat.
Proof.
  induction pools as [|p pools IH]; [simpl; lia|].
  rewrite fmap_cons. intros [Hp Hnd]%NoDup_cons.
  rewrite filter_cons. case_decide as Hk; [|by apply IH].
  rewrite filter_key_none; [simpl; lia|].
  intros p' Hp' Hk'. apply Hp. rewrite Hk, <- Hk'.
  by apply list_elem_of_fmap_2.
Qed.

Lemma joined_pool_perm k pools pools' :
  NoDup (pool_key <$> pools) →
  pools ≡ₚ pools' →
  joined_pool k pools = joined_pool k pools'.
Proof.
  intros Hnd Hperm. unfold joined_pool.
  pose proof (filter_key_at_most_one k pools Hnd) as Hlen.
  assert (filter (λ pool, pool_key pool = Ok k) pools
          ≡ₚ filter (λ pool, pool_key pool = Ok k) pools') as Hf
    by by rewrite Hperm.
  destruct (filter _ pools) as [|p [|p2 l]]; [| |simpl in Hlen; lia].
  - symmetry in Hf. apply Permutation_nil_r in Hf. by rewrite Hf.
  - symmetry in Hf. apply Permutation_singleton_r in Hf. by rewrite Hf.
Qed.

(** X11: when the lower-cased addresses of the records of [poolData] are
    distinct, the order of the records is immaterial: any rearrangement of
    the records builds the same two look-ups. *)
Theorem X11_lookups_ignore_record_order pools pools' usd_lk extra_lk :
  NoDup (pool_key <$> pools) →
  pools ≡ₚ pools' →
  build_lookups pools = Ok (usd_lk, extra_lk) →
  build_lookups pools' = Ok (usd_lk, extra_lk).
Proof.
  intros Hnd Hperm Hlk.
  assert (∃ lk', build_lookups pools' = Ok lk') as [[u' x'] Hlk'].
  { apply index_pools_indexable. rewrite <- Hperm.
    apply (index_pools_indexable pools (∅, ∅)). by eexists. }
  rewrite Hlk'. do 2 f_equal; apply map_eq; intros k.
  - destruct (build_lookups_lookup _ _ _ k Hlk) as [-> _].
    destruct (build_lookups_lookup _ _ _ k Hlk') as [-> _].
    by rewrite (joined_pool_perm k pools pools').
  - destruct (build_lookups_lookup _ _ _ k Hlk) as [_ ->].
    destruct (build_lookups_lookup _ _ _ k Hlk') as [_ ->].
    by rewrite (joined_pool_perm k pools pools').
Qed.

Lemma X11_lookups_ignore_record_order_witness :
  build_lookups [SampleDuplicate.elsewhere; SampleDuplicate.second]
  = Ok (<["0xcc" := JNum 3000]> (<["0xaa" := JNum 2000]> ∅),
        <["0xcc" := 0%Q]> (<["0xaa" := (0 + 2 + 5)%Q]> ∅)).
Proof.
  apply (X11_lookups_ignore_record_order
           [SampleDuplicate.second; SampleDuplicate.elsewhere]
           [SampleDuplicate.elsewhere; SampleDuplicate.second]).
  - compute_done.
  - apply Permutation_swap.
  - reflexivity.
Defined.

Lemma prefix_append a : ∀ b,
  String.prefix a b = true ↔ ∃ post, b = a +:+ post.
Proof.
  induction a as [|c a IH]; intros b.
  - split; [by exists b|by destruct b].
  - destruct b as [|c' b]; cbn [String.prefix].
    + split; [done|]. by intros [post [=]].
    + destruct (ascii_dec c c') as [->|Hne].
      * rewrite IH. split; intros [post H]; exists post;
          [by rewrite H|by injection H].
      * split; [done|]. intros [post [= ? _]]. done.
Qed.

Lemma prefix_contains needle hay :
  String.prefix needle hay = true → contains needle hay = true.
Proof. intros H. destruct hay; cbn [contains]; by rewrite H. Qed.

Lemma contains_append needle : ∀ hay,
  contains needle hay = true ↔ ∃ pre post, hay = pre +:+ needle +:+ post.
Proof.
  intros hay. split.
  - induction hay as [|c hay IH]; cbn [contains].
    + rewrite orb_false_r. intros [post ->]%prefix_append. by exists "", post.
    + intros [[post ->]%prefix_append|H]%orb_prop; [by exists "", post|].
      destruct (IH H) as (pre & post & ->). by exists (String c pre), post.
  - intros (pre & post & ->). induction pre as [|c pre IH].
    + apply prefix_contains, prefix_append. by exists post.
    + change (String c pre +:+ needle +:+ post)
        with (String c (pre +:+ needle +:+ post)).
      cbn [contains]. rewrite IH. apply orb_true_r.
Qed.

(** X12: [in] on strings is the test for a contiguous substring, so a gauge
    entry whose lower-cased name has "btc" or "eth" anywhere inside it (as
    "Tether3Pool" has) is skipped by the loop without an error, whatever
    its record holds, and no entry of the result bears its name. *)
Theorem X12_name_with_btc_or_eth_is_skipped fs file_path
    all_pools_file_path usd_lk extra_lk min_apy min_usd_total st
    pool_name o pre word post :
  word = "btc" ∨ word = "eth" →
  lower pool_name = pre +:+ word +:+ post →
  scan_entry usd_lk extra_lk min_apy min_usd_total st pool_name (JObj o)
    = Ok st ∧
  ∀ e, e ∈ (filter_high_apy_pools fs file_path all_pools_file_path
              min_apy min_usd_total).2 →
       name e ≠ pool_name.
Proof.
  intros Hword Hname.
  assert (contains "btc" (lower pool_name)
          || contains "eth" (lower pool_name) = true) as Hc.
  { apply orb_true_iff.
    destruct Hword as [->| ->]; [left|right]; apply contains_append; eauto. }
  split.
  - unfold scan_entry. cbn [py_get mbind res_bind].
    destruct (negb _); [done|]. destruct (bad_gauge_crv_apy _); [done|].
    destruct (truthy _); [done|]. destruct (not_stable _); [done|].
    by rewrite Hc.
  - intros e (u & x & n & info & t & _ & _ & Hq & _ & _ & ->)
      %result_entry_inv. cbn [scored name]. intros ->.
    apply qualifies_items in Hq as (_ & _ & _ & _ & Hn).
    unfold name_allowed in Hn.
    apply andb_prop in Hn as [Hb%negb_true_iff He%negb_true_iff].
    by rewrite Hb, He in Hc.
Qed.

Lemma X12_name_with_btc_or_eth_is_skipped_witness :
  scan_entry SampleNull.usd_lk SampleNull.extra_lk 7 5000000 ([], [])
    "Tether3Pool" (Sample.record Sample.pair_5_6) = Ok ([], []) ∧
  ∀ e, e ∈ (filter_high_apy_pools Sample.fs "gauges.json" "pools.json"
              7 5000000).2 →
       name e ≠ "Tether3Pool".
Proof.
  apply (X12_name_with_btc_or_eth_is_skipped Sample.fs "gauges.json"
           "pools.json" SampleNull.usd_lk SampleNull.extra_lk 7 5000000
           ([], []) "Tether3Pool" _ "t" "eth" "er3pool").
  - by right.
  - reflexivity.
Defined.

(** ** The report and the entry point *)

Lemma titles_app out out' : titles (out ++ out') = titles out ++ titles out'.
Proof. unfold titles. apply omap_app. Qed.

Lemma titles_bind {A B : Type} (m : io A) (f : A → io B) :
  titles (io_bind m f).1 =
  titles m.1 ++ match m.2 with
                | Done a => titles (f a).1
                | Failed _ => []
                end.
Proof.
  destruct m as [out [a|e]]; cbn [io_bind fst snd].
  - destruct (f a) as [out' r]. apply titles_app.
  - by rewrite app_nil_r.
Qed.

Lemma no_title_bind {A B : Type} (m : io A) (f : A → io B) :
  titles m.1 = [] → (∀ a, titles (f a).1 = []) →
  titles (io_bind m f).1 = [].
Proof.
  intros Hm Hf. rewrite titles_bind, Hm. destruct m.2; [apply Hf|done].
Qed.

Lemma no_title_lift {A : Type} (r : res A) : titles (lift r).1 = [].
Proof. by destruct r. Qed.

Lemma no_title_subscript v i : titles (py_subscript v i).1 = [].
Proof. unfold py_subscript. by repeat case_match. Qed.

Ltac no_title :=
  repeat first
    [ apply no_title_lift
    | apply no_title_subscript
    | reflexivity
    | apply no_title_bind; [|intros ?]
    | match goal with |- context [if ?b then _ else _] => destruct b end ].

Lemma report_pool_titles i pool :
  titles (report_pool i pool).1 = [(i, name pool)].
Proof.
  transitivity ([(i, name pool)] ++ []); [|done].
  unfold report_pool. rewrite titles_bind. f_equal.
  cbn [print snd]. no_title.
Qed.

Lemma io_bind_done {A B : Type} (m : io A) (f : A → io B) b :
  (io_bind m f).2 = Done b → ∃ a, m.2 = Done a ∧ (f a).2 = Done b.
Proof.
  destruct m as [out [a|e]]; cbn [io_bind snd]; [|done].
  destruct (f a) as [out' r] eqn:Hf. cbn [snd]. intros ->.
  exists a. by rewrite Hf.
Qed.

Lemma report_pools_titles_prefix l : ∀ i,
  titles (report_pools i l).1
    `prefix_of` zip (seq i (length l)) (name <$> l).
Proof.
  induction l as [|e l IH]; intros i; [done|].
  cbn [report_pools]. rewrite titles_bind, report_pool_titles.
  cbn [length seq fmap list_fmap zip zip_with app].
  apply prefix_cons.
  destruct (report_pool i e).2; [apply IH|apply prefix_nil].
Qed.

Lemma report_pools_titles l : ∀ i,
  (report_pools i l).2 = Done () →
  titles (report_pools i l).1 = zip (seq i (length l)) (name <$> l).
Proof.
  induction l as [|e l IH]; intros i H; [done|].
  cbn [report_pools] in *. rewrite titles_bind, report_pool_titles.
  apply io_bind_done in H as ([] & -> & H).
  cbn [length seq fmap list_fmap zip zip_with app]. f_equal. by apply IH.
Qed.

(** X13: [print_results] gives every pool one title, numbered from 1 in
    the order of the list: the titles of a report that raised nothing are
    the names of the list with the numbers 1 to its length, and the titles
    of a report cut short by an exception are the first of these. *)
Theorem X13_report_numbers_pools_in_order high_apy_pools min_apy :
  titles (print_results high_apy_pools min_apy).1
    `prefix_of` zip (seq 1 (length high_apy_pools)) (name <$> high_apy_pools) ∧
  ((print_results high_apy_pools min_apy).2 = Done () →
   titles (print_results high_apy_pools min_apy).1
   = zip (seq 1 (length high_apy_pools)) (name <$> high_apy_pools)).
Proof.
  unfold print_results.
  destruct high_apy_pools as [|e l]; [done|].
  rewrite !titles_bind. cbn [print fst snd titles omap app].
  split; [apply report_pools_titles_prefix|].
  intros H. apply report_pools_titles.
  apply io_bind_done in H as ([] & _ & H).
  by apply io_bind_done in H as ([] & _ & H).
Qed.

Lemma X13_report_numbers_pools_in_order_witness :
  (print_results [Sample.stable3pool_scored] 7).2 = Done () ∧
  titles (print_results [Sample.stable3pool_scored] 7).1
  = zip (seq 1 (length [Sample.stable3pool_scored]))
      (name <$> [Sample.stable3pool_scored]).
Proof.
  assert ((print_results [Sample.stable3pool_scored] 7).2 = Done ()) as H.
  { reflexivity. }
  split; [exact H|].
  exact (proj2 (X13_report_numbers_pools_in_order
                  [Sample.stable3pool_scored] 7) H).
Defined.

Lemma result_entry_fields fs file_path all_pools_file_path
    min_apy min_usd_total e :
  e ∈ (filter_high_apy_pools fs file_path all_pools_file_path
         min_apy min_usd_total).2 →
  ∃ o g0 g1 q,
    pool_info e = JObj o ∧
    gaugeCrvApy e = JArr [g0; g1] ∧
    numeric (base_apy g0) = true ∧ numeric (base_apy g1) = true ∧
    as_num (usd_total e) = Some q ∧
    dict_get "type" o = Some (JStr "stable").
Proof.
  intros (usd_lk & extra_lk & n & info & t & _ & _ & Hq & Ht & _ & ->)
    %result_entry_inv.
  destruct (qualifies_items _ _ _ _ Hq) as (_ & _ & _ & Hs & _).
  apply qualifies_join in Hq as (k & q & _ & _ & Hq & _).
  apply total_apy_inv in Ht as (g0 & g1 & b0 & b1 & Hg & Hb0 & Hb1 & _).
  destruct info as [ | | | | |o]; try done.
  exists o, g0, g1, q. cbn [scored pool_info gaugeCrvApy usd_total].
  rewrite Hg. unfold numeric. rewrite Hb0, Hb1. split_and!; try done.
  unfold is_stable in Hs. cbn [field] in Hs.
  destruct (dict_get "type" o) as [[ | | |s| | ]|]; try done.
  by apply String.eqb_eq in Hs as ->.
Qed.


Lemma numeric_base_apy g :
  numeric (base_apy g) = true →
  if is_none g then format_2f g = Raise TypeError
  else ∃ c, as_num g = Some c ∧ format_2f g = Ok c.
Proof.
  unfold numeric, base_apy. destruct g as [ |[]| | | | ]; try done;
    by eexists.
Qed.

Lemma report_pool_null fs file_path all_pools_file_path
    min_apy min_usd_total e i :
  e ∈ (filter_high_apy_pools fs file_path all_pools_file_path
         min_apy min_usd_total).2 →
  entry_has_null e = true →
  report_pool i e = ([PoolTitle i (name e)], Failed (Builtin TypeError)).
Proof.
  intros (o & g0 & g1 & q & Hinfo & Hg & H0 & H1 & Hq & Hty)
    %result_entry_fields.
  apply numeric_base_apy in H0, H1.
  unfold entry_has_null, report_pool. rewrite Hinfo, Hg.
  cbn [py_index nth py_subscript nth_error io_bind print field].
  intros Hnull. destruct (is_none g0).
  - by rewrite H0.
  - destruct H0 as (c0 & _ & ->). cbn [lift io_bind].
    cbn [orb] in Hnull. rewrite Hnull in H1. by rewrite H1.
Qed.



Lemma report_pools_failed l : ∀ i,
  Exists (λ e, ∀ j, ∃ out err, report_pool j e = (out, Failed err)) l →
  ∃ err, (report_pools i l).2 = Failed err.
Proof.
  induction l as [|e l IH]; intros i H; [by apply Exists_nil in H|].
  cbn [report_pools]. apply Exists_cons in H as [H|H].
  - destruct (H i) as (out & err & ->). by exists err.
  - destruct (report_pool i e) as [out [[]|err]]; [|by exists err].
    cbn [io_bind].
    destruct (IH (S i) H) as [err Herr].
    destruct (report_pools (S i) l) as [out' r]. by exists err.
Qed.

Lemma main_unfold fs writable script_dir :
  main fs writable script_dir =
  let r := filter_high_apy_pools fs
             (path_join script_dir "curvefi-all-guages.json")
             (path_join script_dir "all-pools.json") 7 5000000 in
  let out := Banner 7 5000000 :: (Filtering <$> r.1)
             ++ (Reporting <$> (print_results r.2 7).1) in
  let output_file :=
    path_join script_dir "high_apy_stable_pools_1m_plus.json" in
  match (print_results r.2 7).2 with
  | Failed e => (out, Failed e)
  | Done _ =>
      match r.2 with
      | [] => (out, Done None)
      | _ =>
          if writable output_file
          then (out ++ [Saved output_file], Done (Some (output_file, r.2)))
          else (out ++ [ErrorSaving], Done None)
      end
  end.
Proof.
  unfold main.
  destruct (filter_high_apy_pools _ _ _ _ _) as [filtering high].
  cbn [fst snd].
  destruct (print_results high 7) as [report [[]|e]]; [|done].
  cbn [fst snd]. by destruct high.
Qed.

(** X15: when a source file beside the script cannot be used, [main]
    prints its banner, the message of the cause and the line that no pool
    was found, writes no file and ends without an exception. *)
Theorem X15_main_with_unusable_source fs writable script_dir msg :
  first_source_error fs
    (path_join script_dir "curvefi-all-guages.json")
    (path_join script_dir "all-pools.json") = Some msg →
  main fs writable script_dir =
  ([Banner 7 5000000; Filtering msg; Reporting (NoPools 7)], Done None).
Proof.
  intros H. rewrite main_unfold.
  by rewrite (first_source_error_filter _ _ _ 7 5000000 _ H).
Qed.

Lemma X15_main_with_unusable_source_witness :
  main Sample.fs (λ _, true) "/srv" =
  ([Banner 7 5000000; Filtering ErrorFileNotFound; Reporting (NoPools 7)],
   Done None).
Proof.
  apply (X15_main_with_unusable_source Sample.fs (λ _, true) "/srv"
           ErrorFileNotFound).
  reflexivity.
Defined.

(** X16: [main] does not always end normally. When the list returned by
    the filter holds an entry with a null in its pair, which happens when
    the entry is not among the first ten of the diagnostic list,
    [print_results] raises outside every [try]: [main] is left by the
    exception and no file is written. *)
Theorem X16_main_left_by_exception fs writable script_dir e :
  e ∈ (filter_high_apy_pools fs
         (path_join script_dir "curvefi-all-guages.json")
         (path_join script_dir "all-pools.json") 7 5000000).2 →
  entry_has_null e = true →
  ∃ out err, main fs writable script_dir = (out, Failed err).
Proof.
  intros Hin Hnull. rewrite main_unfold. cbv zeta.
  set (r := filter_high_apy_pools _ _ _ _ _) in *.
  assert (∃ err, (print_results r.2 7).2 = Failed err) as [err Herr].
  { unfold print_results. destruct r.2 as [|e0 l] eqn:Hr.
    { by apply elem_of_nil in Hin. }
    cbn [print io_bind].
    destruct (report_pools_failed (e0 :: l) 1) as [err Herr].
    { apply Exists_exists. exists e. split; [done|]. intros j.
      eexists _, _. eapply report_pool_null; [|done].
      subst r. by rewrite Hr. }
    destruct (report_pools 1 (e0 :: l)) as [out' r']. by exists err. }
  rewrite Herr. by eexists _, _.
Qed.

Lemma X16_main_left_by_exception_witness :
  ∃ out err, main SampleEleven.fs (λ _, true) "/srv" = (out, Failed err).
Proof.
  apply (X16_main_left_by_exception SampleEleven.fs (λ _, true) "/srv"
           SampleEleven.last_scored).
  - vm_compute. do 10 apply list_elem_of_further. apply list_elem_of_here.
  - reflexivity.
Defined.

(** X17: [main] writes a file exactly when the filter, run on the two
    files beside the script with the thresholds 7 and 5,000,000, returns a
    non-empty list, the report raises nothing and the write succeeds; the
    file is "high_apy_stable_pools_1m_plus.json" beside the script and holds
    the returned list. A write that fails is reported and [main] still ends
    normally. *)
Theorem X17_main_saves_the_returned_list fs writable script_dir :
  let result :=
    (filter_high_apy_pools fs
       (path_join script_dir "curvefi-all-guages.json")
       (path_join script_dir "all-pools.json") 7 5000000).2 in
  let output_file :=
    path_join script_dir "high_apy_stable_pools_1m_plus.json" in
  (∀ saved,
     (main fs writable script_dir).2 = Done (Some saved) ↔
     saved = (output_file, result) ∧ result ≠ [] ∧
     (print_results result 7).2 = Done () ∧ writable output_file = true) ∧
  ((print_results result 7).2 = Done () →
   ∃ written, (main fs writable script_dir).2 = Done written).
Proof.
  intros result output_file. rewrite main_unfold. cbv zeta.
  fold result. fold output_file.
  destruct (print_results result 7).2 as [[]|err].
  - destruct result as [|e l] eqn:Hres.
    + split; [|by eexists]. intros saved. cbn [snd].
      split; [done|]. by intros (_ & ? & _).
    + destruct (writable output_file).
      * split; [|by eexists]. intros saved. cbn [snd]. split.
        -- by intros [= <-].
        -- by intros (-> & _).
      * split; [|by eexists]. intros saved. cbn [snd].
        split; [done|]. by intros (_ & _ & _ & ?).
  - split; [|done]. intros saved. cbn [snd].
    split; [done|]. by intros (_ & _ & ? & _).
Qed.

Lemma X17_main_saves_the_returned_list_witness :
  (main SampleMain.fs (λ _, true) "/srv").2 =
  Done (Some ("/srv/high_apy_stable_pools_1m_plus.json",
              (filter_high_apy_pools SampleMain.fs
                 "/srv/curvefi-all-guages.json" "/srv/all-pools.json"
                 7 5000000).2)).
Proof.
  apply (proj1 (X17_main_saves_the_returned_list SampleMain.fs
                  (λ _, true) "/srv")).
  split_and!; [reflexivity|by vm_compute|reflexivity|reflexivity].
Defined.
